(** * BLIP3-o configuration records: a shallow embedding and its properties

    Source: src/modules/config/blip3o_config.py

    The module defines three configuration records (the DiT model record,
    the flow-matching record and the training record), their validation
    passes, a handful of factory functions, the module-level presets and a
    cross-record compatibility check.

    Modelling choices.
    - Python [int] is [Z]; [%] and [//] are [Z.modulo] and [Z.div] (both
      floor, sign of the divisor), [float] is the primitive binary64 type
      with its IEEE comparisons, [str] is [string], [Optional[T]] is
      [option T].
    - [assert c, m] raises [AssertionError] carrying [m] when [c] is false
      (assertions are enabled: the interpreter does not run with -O);
      [raise ValueError(m)] raises [ValueError].
    - An f-string is kept as the list of its pieces (literal text and the
      formatted values); [evaluate] converts its values, and raises
      ValueError at an int of more than 4300 decimal digits, the
      interpreter's default limit; [render] turns an evaluated f-string
      into text.  The message of a failed [assert] is evaluated before the
      assertion error is built.
    - Methods run in a state-and-exception monad over the object (or the
      objects and the console) they can reach, so that what a call leaves
      behind is part of its meaning.
    - Keyword arguments are a record with one optional entry per named
      parameter of the constructor: [None] is a key that is absent.  The
      keyword passthrough to the framework base class is not modelled. *)

From Stdlib Require Import ZArith String List Bool Floats Lia DecimalString.
Import ListNotations.

Set Warnings "-inexact-float".

Open Scope string_scope.
Open Scope Z_scope.

(** ** Exceptions, messages and the method monad *)

(** One piece of an f-string. *)
Inductive fpart : Type :=
| Lit (s : string)      (* literal text *)
| FInt (z : Z)          (* {an int} *)
| FFloat (x : float)    (* {a float} *)
| FStr (s : string).    (* {a str} *)

Definition fstring : Type := list fpart.

(** A message that is a plain string literal. *)
Definition plain (s : string) : fstring := [Lit s].

Inductive exn : Type :=
| AssertionError (msg : fstring)
| ValueError (msg : fstring).

Inductive result (A : Type) : Type :=
| Ok (a : A)
| Raise (e : exn).
Arguments Ok {A} a.
Arguments Raise {A} e.

(** The interpreter's default limit on the decimal digits of an int that is
    converted to text ([sys.get_int_max_str_digits()]). *)
Definition int_max_str_digits : Z := 4300.

(** Whether an int has at most [int_max_str_digits] digits, sign apart. *)
Definition convertible (z : Z) : bool := Z.abs z <? 10 ^ int_max_str_digits.
Arguments convertible : simpl never.

(** The message of the ValueError of a conversion over the limit. *)
Definition int_limit_message : fstring :=
  plain "Exceeds the limit (4300 digits) for integer string conversion; use sys.set_int_max_str_digits() to increase the limit".

(** The decimal digits of an int, with a minus sign when negative. *)
Definition decimal (z : Z) : string := NilZero.string_of_int (Z.to_int z).

(** [str] of an int, as formatting applies it: the digits, or ValueError
    when there are more than the limit allows. *)
Definition str_int (z : Z) : result string :=
  if convertible z then Ok (decimal z) else Raise (ValueError int_limit_message).

(** Evaluation of an f-string: its values are converted from left to
    right, and the first int over the limit raises. *)
Fixpoint evaluate (m : fstring) : result fstring :=
  match m with
  | [] => Ok []
  | p :: m' =>
      let rest :=
        match evaluate m' with
        | Ok r => Ok (p :: r)
        | Raise e => Raise e
        end in
      match p with
      | FInt z =>
          match str_int z with
          | Ok _ => rest
          | Raise e => Raise e
          end
      | _ => rest
      end
  end.

(** The text of one piece of an evaluated f-string. *)
Definition render_part (float_repr : float -> string) (p : fpart) : string :=
  match p with
  | Lit s => s
  | FInt z => decimal z
  | FFloat x => float_repr x
  | FStr s => s
  end.

(** The text of an evaluated f-string, given the runtime's float
    formatting. *)
Definition render (float_repr : float -> string) (m : fstring) : string :=
  String.concat "" (map (render_part float_repr) m).

(** What a failed [assert cond, msg] raises: the message is evaluated
    first, so an exception of that evaluation takes the place of the
    assertion error. *)
Definition assertion_failure (msg : fstring) : exn :=
  match evaluate msg with
  | Ok m => AssertionError m
  | Raise e => e
  end.

(** A computation over a store [S]: its outcome and the store it leaves. *)
Definition M (S A : Type) : Type := S -> result A * S.

Definition ret {S A} (a : A) : M S A := fun s => (Ok a, s).

Definition bind {S A B} (m : M S A) (k : A -> M S B) : M S B :=
  fun s =>
    match m s with
    | (Ok a, s') => k a s'
    | (Raise e, s') => (Raise e, s')
    end.

Definition modify {S} (f : S -> S) : M S unit := fun s => (Ok tt, f s).

(** [assert cond, msg]: the condition and the message read the store. *)
Definition assert_ {S} (cond : S -> bool) (msg : S -> fstring) : M S unit :=
  fun s =>
    if cond s then (Ok tt, s) else (Raise (assertion_failure (msg s)), s).

Declare Scope py_scope.
Delimit Scope py_scope with py.
Notation "m ;; k" := (bind m (fun _ => k))
  (at level 61, right associativity) : py_scope.
Notation "'assert' c 'or' m" := (assert_ c m)
  (at level 60, c at level 9, m at level 9) : py_scope.

(** [x in [a, b, ...]] on strings. *)
Definition str_in (x : string) (l : list string) : bool :=
  existsb (String.eqb x) l.

(** A keyword argument when supplied, the parameter's default otherwise. *)
Definition arg {A} (supplied : option A) (default : A) : A :=
  match supplied with
  | Some v => v
  | None => default
  end.

(** [Dict[str, Any]] as far as this module needs it: it is only stored. *)
Inductive Any : Type :=
| AInt (z : Z)
| AFloat (x : float)
| AStr (s : string)
| ABool (b : bool)
| ANone.

Definition Dict : Type := list (string * Any).

(** ** The model-architecture record *)

(** Keyword arguments of the model constructor. *)
Record Kwargs : Type := mkKwargs {
  kw_input_size : option Z;
  kw_patch_size : option Z;
  kw_in_channels : option Z;
  kw_dim : option Z;
  kw_n_layers : option Z;
  kw_n_heads : option Z;
  kw_n_kv_heads : option (option Z);
  kw_qk_norm : option bool;
  kw_norm_eps : option float;
  kw_eva_embedding_size : option Z;
  kw_mlp_hidden_dim : option Z;
  kw_mlp_num_layers : option Z;
  kw_mlp_dropout : option float;
  kw_mlp_activation : option string;
  kw_learn_sigma : option bool;
  kw__gradient_checkpointing : option bool;
  kw_rope_base : option float;
  kw_rope_scaling : option (option Dict);
  kw_initializer_range : option float;
  kw_use_flash_attention : option bool;
  kw_attention_dropout : option float;
  kw_intermediate_size : option (option Z);
  kw_hidden_dropout : option float;
  kw_max_position_embeddings : option Z
}.

(** The empty keyword mapping. *)
Definition no_kwargs : Kwargs :=
  mkKwargs None None None None None None None None None None None None
           None None None None None None None None None None None None.

(** [d.update(other)], also [{**d, **other}]: the keys of [other] win. *)
Definition update_key {A} (d other : option A) : option A :=
  match other with
  | Some v => Some v
  | None => d
  end.

Definition dict_update (d other : Kwargs) : Kwargs :=
  {| kw_input_size := update_key (kw_input_size d) (kw_input_size other);
     kw_patch_size := update_key (kw_patch_size d) (kw_patch_size other);
     kw_in_channels := update_key (kw_in_channels d) (kw_in_channels other);
     kw_dim := update_key (kw_dim d) (kw_dim other);
     kw_n_layers := update_key (kw_n_layers d) (kw_n_layers other);
     kw_n_heads := update_key (kw_n_heads d) (kw_n_heads other);
     kw_n_kv_heads := update_key (kw_n_kv_heads d) (kw_n_kv_heads other);
     kw_qk_norm := update_key (kw_qk_norm d) (kw_qk_norm other);
     kw_norm_eps := update_key (kw_norm_eps d) (kw_norm_eps other);
     kw_eva_embedding_size :=
       update_key (kw_eva_embedding_size d) (kw_eva_embedding_size other);
     kw_mlp_hidden_dim :=
       update_key (kw_mlp_hidden_dim d) (kw_mlp_hidden_dim other);
     kw_mlp_num_layers :=
       update_key (kw_mlp_num_layers d) (kw_mlp_num_layers other);
     kw_mlp_dropout := update_key (kw_mlp_dropout d) (kw_mlp_dropout other);
     kw_mlp_activation :=
       update_key (kw_mlp_activation d) (kw_mlp_activation other);
     kw_learn_sigma := update_key (kw_learn_sigma d) (kw_learn_sigma other);
     kw__gradient_checkpointing :=
       update_key (kw__gradient_checkpointing d)
                  (kw__gradient_checkpointing other);
     kw_rope_base := update_key (kw_rope_base d) (kw_rope_base other);
     kw_rope_scaling := update_key (kw_rope_scaling d) (kw_rope_scaling other);
     kw_initializer_range :=
       update_key (kw_initializer_range d) (kw_initializer_range other);
     kw_use_flash_attention :=
       update_key (kw_use_flash_attention d) (kw_use_flash_attention other);
     kw_attention_dropout :=
       update_key (kw_attention_dropout d) (kw_attention_dropout other);
     kw_intermediate_size :=
       update_key (kw_intermediate_size d) (kw_intermediate_size other);
     kw_hidden_dropout :=
       update_key (kw_hidden_dropout d) (kw_hidden_dropout other);
     kw_max_position_embeddings :=
       update_key (kw_max_position_embeddings d)
                  (kw_max_position_embeddings other) |}.

Module BLIP3oDiTConfig.

Record t : Type := mk {
  input_size : Z;
  patch_size : Z;
  in_channels : Z;
  dim : Z;
  n_layers : Z;
  n_heads : Z;
  n_kv_heads : Z;
  qk_norm : bool;
  norm_eps : float;
  eva_embedding_size : Z;
  mlp_hidden_dim : Z;
  mlp_num_layers : Z;
  mlp_dropout : float;
  mlp_activation : string;
  learn_sigma : bool;
  _gradient_checkpointing : bool;
  rope_base : float;
  rope_scaling : option Dict;
  initializer_range : float;
  use_flash_attention : bool;
  attention_dropout : float;
  intermediate_size : Z;
  hidden_dropout : float;
  max_position_embeddings : Z
}.

Local Open Scope py_scope.

(** [_validate_config(self)]: the assertions, in the order of the source. *)
Definition _validate_config : M t unit :=
  (* Basic dimension checks *)
  assert (fun self => 0 <? dim self)
      or (fun _ => plain "Model dimension must be positive") ;;
  assert (fun self => 0 <? n_layers self)
      or (fun _ => plain "Number of layers must be positive") ;;
  assert (fun self => 0 <? n_heads self)
      or (fun _ => plain "Number of heads must be positive") ;;
  assert (fun self => 0 <? n_kv_heads self)
      or (fun _ => plain "Number of key-value heads must be positive") ;;
  (* Check head dimension compatibility *)
  assert (fun self => dim self mod n_heads self =? 0)
      or (fun self => [Lit "dim ("; FInt (dim self);
                       Lit ") must be divisible by n_heads (";
                       FInt (n_heads self); Lit ")"]) ;;
  (* Input validation *)
  assert (fun self => 0 <? input_size self)
      or (fun _ => plain "Input size must be positive") ;;
  assert (fun self => 0 <? patch_size self)
      or (fun _ => plain "Patch size must be positive") ;;
  assert (fun self => 0 <? in_channels self)
      or (fun _ => plain "Input channels must be positive") ;;
  assert (fun self => 0 <? eva_embedding_size self)
      or (fun _ => plain "EVA embedding size must be positive") ;;
  (* MLP validation *)
  assert (fun self => 0 <? mlp_hidden_dim self)
      or (fun _ => plain "MLP hidden dimension must be positive") ;;
  assert (fun self => 0 <? mlp_num_layers self)
      or (fun _ => plain "MLP number of layers must be positive") ;;
  assert (fun self => (0.0 <=? mlp_dropout self)%float
                      && (mlp_dropout self <=? 1.0)%float)
      or (fun _ => plain "MLP dropout must be between 0 and 1") ;;
  assert (fun self => str_in (mlp_activation self) ["gelu"; "relu"; "silu"])
      or (fun self => [Lit "Unknown activation: ";
                       FStr (mlp_activation self)]) ;;
  (* Flow matching validation *)
  assert (fun self => negb (learn_sigma self))
      or (fun _ => plain
            "BLIP3-o uses flow matching, learn_sigma must be False") ;;
  (* BLIP3-o specific validation *)
  assert (fun self => in_channels self =? 1024)
      or (fun _ => plain "CLIP embedding dimension must be 1024") ;;
  assert (fun self => eva_embedding_size self =? 4096)
      or (fun _ => plain "EVA-CLIP dimension must be 4096") ;;
  assert (fun self => patch_size self =? 1)
      or (fun _ => plain
            "Features are pre-tokenized, patch_size must be 1") ;;
  assert (fun self => input_size self =? 16)
      or (fun _ => plain "Input size must be 16 for 256 tokens (16×16)").

(** The constructor: bind the parameters, derive the two optional ones,
    store every attribute, validate.  An exception leaves no object. *)
Definition __init__ (kw : Kwargs) : result t :=
  let input_size := arg (kw_input_size kw) 16 in
  let patch_size := arg (kw_patch_size kw) 1 in
  let in_channels := arg (kw_in_channels kw) 1024 in
  let dim := arg (kw_dim kw) 768 in
  let n_layers := arg (kw_n_layers kw) 16 in
  let n_heads := arg (kw_n_heads kw) 12 in
  let n_kv_heads := arg (kw_n_kv_heads kw) None in
  let qk_norm := arg (kw_qk_norm kw) true in
  let norm_eps := arg (kw_norm_eps kw) 1e-5%float in
  let eva_embedding_size := arg (kw_eva_embedding_size kw) 4096 in
  let mlp_hidden_dim := arg (kw_mlp_hidden_dim kw) 2048 in
  let mlp_num_layers := arg (kw_mlp_num_layers kw) 3 in
  let mlp_dropout := arg (kw_mlp_dropout kw) 0.1%float in
  let mlp_activation := arg (kw_mlp_activation kw) "gelu" in
  let learn_sigma := arg (kw_learn_sigma kw) false in
  let _gradient_checkpointing := arg (kw__gradient_checkpointing kw) true in
  let rope_base := arg (kw_rope_base kw) 10000.0%float in
  let rope_scaling := arg (kw_rope_scaling kw) None in
  let initializer_range := arg (kw_initializer_range kw) 0.02%float in
  let use_flash_attention := arg (kw_use_flash_attention kw) false in
  let attention_dropout := arg (kw_attention_dropout kw) 0.0%float in
  let intermediate_size := arg (kw_intermediate_size kw) None in
  let hidden_dropout := arg (kw_hidden_dropout kw) 0.0%float in
  let max_position_embeddings :=
    arg (kw_max_position_embeddings kw) 1024 in
  (* Set default n_kv_heads if not specified *)
  let n_kv_heads :=
    match n_kv_heads with None => n_heads | Some v => v end in
  (* Set default intermediate_size if not specified *)
  let intermediate_size :=
    match intermediate_size with None => 4 * dim | Some v => v end in
  (* Store all parameters *)
  let self :=
    {| input_size := input_size;
       patch_size := patch_size;
       in_channels := in_channels;
       dim := dim;
       n_layers := n_layers;
       n_heads := n_heads;
       n_kv_heads := n_kv_heads;
       qk_norm := qk_norm;
       norm_eps := norm_eps;
       eva_embedding_size := eva_embedding_size;
       mlp_hidden_dim := mlp_hidden_dim;
       mlp_num_layers := mlp_num_layers;
       mlp_dropout := mlp_dropout;
       mlp_activation := mlp_activation;
       learn_sigma := learn_sigma;
       _gradient_checkpointing := _gradient_checkpointing;
       rope_base := rope_base;
       rope_scaling := rope_scaling;
       initializer_range := initializer_range;
       use_flash_attention := use_flash_attention;
       attention_dropout := attention_dropout;
       intermediate_size := intermediate_size;
       hidden_dropout := hidden_dropout;
       max_position_embeddings := max_position_embeddings |} in
  (* Validate after initialization *)
  match _validate_config self with
  | (Ok _, self') => Ok self'
  | (Raise e, _) => Raise e
  end.

(** Total number of tokens (patches). *)
Definition get_num_tokens (self : t) : Z := input_size self * input_size self.

(** Attention head dimension. *)
Definition get_head_dim (self : t) : Z := dim self / n_heads self.

End BLIP3oDiTConfig.

(** ** The flow-matching record *)

Module FlowMatchingConfig.

Record t : Type := mk {
  sigma_min : float;
  sigma_max : float;
  prediction_type : string;
  schedule_type : string;
  clip_dim : Z;
  eva_dim : Z;
  regularization_weight : float;
  alignment_loss_weight : float;
  temporal_loss_weight : float;
  use_progressive_training : bool;
  min_timestep : float;
  max_timestep : float
}.

(** The field defaults of the dataclass. *)
Definition defaults : t :=
  {| sigma_min := 1e-4%float;
     sigma_max := 1.0%float;
     prediction_type := "v_prediction";
     schedule_type := "linear";
     clip_dim := 1024;
     eva_dim := 4096;
     regularization_weight := 0.01%float;
     alignment_loss_weight := 0.1%float;
     temporal_loss_weight := 0.05%float;
     use_progressive_training := true;
     min_timestep := 0.001%float;
     max_timestep := 0.999%float |}.

Local Open Scope py_scope.

(** [__post_init__(self)].  A chained comparison [a <= b < c <= d] is the
    conjunction of its links. *)
Definition __post_init__ : M t unit :=
  assert (fun self =>
            str_in (prediction_type self) ["v_prediction"; "epsilon"])
      or (fun self => [Lit "Invalid prediction type: ";
                       FStr (prediction_type self)]) ;;
  assert (fun self =>
            str_in (schedule_type self) ["linear"; "cosine"; "sigmoid"])
      or (fun self => [Lit "Invalid schedule type: ";
                       FStr (schedule_type self)]) ;;
  assert (fun self => (0 <=? sigma_min self)%float
                      && (sigma_min self <? sigma_max self)%float
                      && (sigma_max self <=? 10.0)%float)
      or (fun self => [Lit "Invalid sigma range: ["; FFloat (sigma_min self);
                       Lit ", "; FFloat (sigma_max self); Lit "]"]) ;;
  assert (fun self => 0 <? clip_dim self)
      or (fun _ => plain "CLIP dimension must be positive") ;;
  assert (fun self => 0 <? eva_dim self)
      or (fun _ => plain "EVA dimension must be positive") ;;
  assert (fun self => (0 <=? min_timestep self)%float
                      && (min_timestep self <? max_timestep self)%float
                      && (max_timestep self <=? 1.0)%float)
      or (fun _ => plain "Invalid timestep range").

(** The generated constructor: store the fields, run [__post_init__]. *)
Definition __init__ (fields : t) : result t :=
  match __post_init__ fields with
  | (Ok _, self') => Ok self'
  | (Raise e, _) => Raise e
  end.

End FlowMatchingConfig.

(** ** The training record *)

Module TrainingConfig.

Record t : Type := mk {
  num_train_epochs : Z;
  per_device_train_batch_size : Z;
  per_device_eval_batch_size : Z;
  learning_rate : float;
  weight_decay : float;
  lr_scheduler_type : string;
  warmup_ratio : float;
  warmup_steps : Z;
  gradient_accumulation_steps : Z;
  max_grad_norm : float;
  fp16 : bool;
  bf16 : bool;
  logging_steps : Z;
  eval_steps : Z;
  save_steps : Z;
  dataloader_num_workers : Z;
  dataloader_pin_memory : bool;
  remove_unused_columns : bool;
  load_best_model_at_end : bool;
  metric_for_best_model : string;
  greater_is_better : bool;
  patch_loss_weight : float;
  global_loss_weight : float;
  flow_matching_loss_weight : float;
  use_cosine_similarity : bool
}.

(** The field defaults of the dataclass. *)
Definition defaults : t :=
  {| num_train_epochs := 8;
     per_device_train_batch_size := 6;
     per_device_eval_batch_size := 4;
     learning_rate := 5e-5%float;
     weight_decay := 0.01%float;
     lr_scheduler_type := "cosine";
     warmup_ratio := 0.05%float;
     warmup_steps := 100;
     gradient_accumulation_steps := 6;
     max_grad_norm := 1.0%float;
     fp16 := true;
     bf16 := false;
     logging_steps := 50;
     eval_steps := 250;
     save_steps := 500;
     dataloader_num_workers := 4;
     dataloader_pin_memory := true;
     remove_unused_columns := false;
     load_best_model_at_end := true;
     metric_for_best_model := "eval_global_cosine_mean";
     greater_is_better := true;
     patch_loss_weight := 1.0%float;
     global_loss_weight := 2.0%float;
     flow_matching_loss_weight := 1.0%float;
     use_cosine_similarity := false |}.

Local Open Scope py_scope.

(** [__post_init__(self)]. *)
Definition __post_init__ : M t unit :=
  assert (fun self => 0 <? num_train_epochs self)
      or (fun _ => plain "Number of epochs must be positive") ;;
  assert (fun self => 0 <? per_device_train_batch_size self)
      or (fun _ => plain "Batch size must be positive") ;;
  assert (fun self => (0 <? learning_rate self)%float)
      or (fun _ => plain "Learning rate must be positive") ;;
  assert (fun self => (0 <=? weight_decay self)%float
                      && (weight_decay self <=? 1.0)%float)
      or (fun _ => plain "Weight decay must be between 0 and 1") ;;
  assert (fun self => 0 <? gradient_accumulation_steps self)
      or (fun _ => plain "Gradient accumulation steps must be positive").

(** The generated constructor: store the fields, run [__post_init__]. *)
Definition __init__ (fields : t) : result t :=
  match __post_init__ fields with
  | (Ok _, self') => Ok self'
  | (Raise e, _) => Raise e
  end.

End TrainingConfig.

(** ** Factory functions *)

(** Default BLIP3-o configuration. *)
Definition get_default_blip3o_config : result BLIP3oDiTConfig.t :=
  BLIP3oDiTConfig.__init__ no_kwargs.

(** Small BLIP3-o configuration for testing. *)
Definition get_small_blip3o_config : result BLIP3oDiTConfig.t :=
  BLIP3oDiTConfig.__init__
    {| kw_input_size := None;
       kw_patch_size := None;
       kw_in_channels := None;
       kw_dim := Some 512;
       kw_n_layers := Some 8;
       kw_n_heads := Some 8;
       kw_n_kv_heads := None;
       kw_qk_norm := None;
       kw_norm_eps := None;
       kw_eva_embedding_size := None;
       kw_mlp_hidden_dim := Some 1024;
       kw_mlp_num_layers := Some 2;
       kw_mlp_dropout := None;
       kw_mlp_activation := None;
       kw_learn_sigma := None;
       kw__gradient_checkpointing := None;
       kw_rope_base := None;
       kw_rope_scaling := None;
       kw_initializer_range := None;
       kw_use_flash_attention := None;
       kw_attention_dropout := None;
       kw_intermediate_size := None;
       kw_hidden_dropout := None;
       kw_max_position_embeddings := None |}.

(** Large BLIP3-o configuration for production. *)
Definition get_large_blip3o_config : result BLIP3oDiTConfig.t :=
  BLIP3oDiTConfig.__init__
    {| kw_input_size := None;
       kw_patch_size := None;
       kw_in_channels := None;
       kw_dim := Some 1024;
       kw_n_layers := Some 24;
       kw_n_heads := Some 16;
       kw_n_kv_heads := None;
       kw_qk_norm := None;
       kw_norm_eps := None;
       kw_eva_embedding_size := None;
       kw_mlp_hidden_dim := Some 4096;
       kw_mlp_num_layers := Some 4;
       kw_mlp_dropout := None;
       kw_mlp_activation := None;
       kw_learn_sigma := None;
       kw__gradient_checkpointing := None;
       kw_rope_base := None;
       kw_rope_scaling := None;
       kw_initializer_range := None;
       kw_use_flash_attention := None;
       kw_attention_dropout := None;
       kw_intermediate_size := None;
       kw_hidden_dropout := None;
       kw_max_position_embeddings := None |}.

(** The four keys both branches of [get_dual_supervision_config] write
    before the caller's: the dict literal without its [**kwargs] tail. *)
Definition dual_supervision_keys : Kwargs :=
  {| kw_input_size := None;
     kw_patch_size := None;
     kw_in_channels := None;
     kw_dim := None;
     kw_n_layers := None;
     kw_n_heads := None;
     kw_n_kv_heads := None;
     kw_qk_norm := None;
     kw_norm_eps := None;
     kw_eva_embedding_size := None;
     kw_mlp_hidden_dim := Some 2048;
     kw_mlp_num_layers := Some 3;
     kw_mlp_dropout := Some 0.1%float;
     kw_mlp_activation := None;
     kw_learn_sigma := None;
     kw__gradient_checkpointing := Some true;
     kw_rope_base := None;
     kw_rope_scaling := None;
     kw_initializer_range := None;
     kw_use_flash_attention := None;
     kw_attention_dropout := None;
     kw_intermediate_size := None;
     kw_hidden_dropout := None;
     kw_max_position_embeddings := None |}.

(** The dict read off a base configuration, one key per attribute. *)
Definition config_dict_of (base_config : BLIP3oDiTConfig.t) : Kwargs :=
  {| kw_input_size := Some (BLIP3oDiTConfig.input_size base_config);
     kw_patch_size := Some (BLIP3oDiTConfig.patch_size base_config);
     kw_in_channels := Some (BLIP3oDiTConfig.in_channels base_config);
     kw_dim := Some (BLIP3oDiTConfig.dim base_config);
     kw_n_layers := Some (BLIP3oDiTConfig.n_layers base_config);
     kw_n_heads := Some (BLIP3oDiTConfig.n_heads base_config);
     kw_n_kv_heads := Some (Some (BLIP3oDiTConfig.n_kv_heads base_config));
     kw_qk_norm := Some (BLIP3oDiTConfig.qk_norm base_config);
     kw_norm_eps := Some (BLIP3oDiTConfig.norm_eps base_config);
     kw_eva_embedding_size :=
       Some (BLIP3oDiTConfig.eva_embedding_size base_config);
     kw_mlp_hidden_dim := Some (BLIP3oDiTConfig.mlp_hidden_dim base_config);
     kw_mlp_num_layers := Some (BLIP3oDiTConfig.mlp_num_layers base_config);
     kw_mlp_dropout := Some (BLIP3oDiTConfig.mlp_dropout base_config);
     kw_mlp_activation := Some (BLIP3oDiTConfig.mlp_activation base_config);
     kw_learn_sigma := Some (BLIP3oDiTConfig.learn_sigma base_config);
     kw__gradient_checkpointing :=
       Some (BLIP3oDiTConfig._gradient_checkpointing base_config);
     kw_rope_base := Some (BLIP3oDiTConfig.rope_base base_config);
     kw_rope_scaling := Some (BLIP3oDiTConfig.rope_scaling base_config);
     kw_initializer_range :=
       Some (BLIP3oDiTConfig.initializer_range base_config);
     kw_use_flash_attention :=
       Some (BLIP3oDiTConfig.use_flash_attention base_config);
     kw_attention_dropout :=
       Some (BLIP3oDiTConfig.attention_dropout base_config);
     kw_intermediate_size :=
       Some (Some (BLIP3oDiTConfig.intermediate_size base_config));
     kw_hidden_dropout := Some (BLIP3oDiTConfig.hidden_dropout base_config);
     kw_max_position_embeddings :=
       Some (BLIP3oDiTConfig.max_position_embeddings base_config) |}.

(** Configuration optimized for dual supervision training. *)
Definition get_dual_supervision_config
    (base_config : option BLIP3oDiTConfig.t) (kwargs : Kwargs)
  : result BLIP3oDiTConfig.t :=
  match base_config with
  | None =>
      (* Create new config directly *)
      let dual_supervision_params :=
        dict_update dual_supervision_keys kwargs in
      BLIP3oDiTConfig.__init__ dual_supervision_params
  | Some base_config =>
      (* Create new config with base parameters updated *)
      let config_dict := config_dict_of base_config in
      (* Update with dual supervision optimizations *)
      let config_dict :=
        dict_update config_dict (dict_update dual_supervision_keys kwargs) in
      BLIP3oDiTConfig.__init__ config_dict
  end.

(** Default flow matching configuration. *)
Definition get_default_flow_matching_config : result FlowMatchingConfig.t :=
  FlowMatchingConfig.__init__ FlowMatchingConfig.defaults.

(** Enhanced flow matching configuration. *)
Definition get_enhanced_flow_matching_config : result FlowMatchingConfig.t :=
  FlowMatchingConfig.__init__
    {| FlowMatchingConfig.sigma_min := 1e-4%float;
       FlowMatchingConfig.sigma_max := 1.0%float;
       FlowMatchingConfig.prediction_type := "v_prediction";
       FlowMatchingConfig.schedule_type := "cosine";
       FlowMatchingConfig.clip_dim := 1024;
       FlowMatchingConfig.eva_dim := 4096;
       FlowMatchingConfig.regularization_weight := 0.01%float;
       FlowMatchingConfig.alignment_loss_weight := 0.1%float;
       FlowMatchingConfig.temporal_loss_weight := 0.05%float;
       FlowMatchingConfig.use_progressive_training := true;
       FlowMatchingConfig.min_timestep := 0.001%float;
       FlowMatchingConfig.max_timestep := 0.999%float |}.

(** Flow matching configuration optimized for dual supervision. *)
Definition get_dual_supervision_flow_matching_config
  : result FlowMatchingConfig.t :=
  FlowMatchingConfig.__init__
    {| FlowMatchingConfig.sigma_min := 1e-4%float;
       FlowMatchingConfig.sigma_max := 1.0%float;
       FlowMatchingConfig.prediction_type := "v_prediction";
       FlowMatchingConfig.schedule_type := "linear";
       FlowMatchingConfig.clip_dim := 1024;
       FlowMatchingConfig.eva_dim := 4096;
       FlowMatchingConfig.regularization_weight := 0.01%float;
       FlowMatchingConfig.alignment_loss_weight := 0.15%float;
       FlowMatchingConfig.temporal_loss_weight := 0.05%float;
       FlowMatchingConfig.use_progressive_training := true;
       FlowMatchingConfig.min_timestep := 0.001%float;
       FlowMatchingConfig.max_timestep := 0.999%float |}.

(** Default training configuration. *)
Definition get_default_training_config : result TrainingConfig.t :=
  TrainingConfig.__init__ TrainingConfig.defaults.

(** Training configuration optimized for dual supervision: every keyword
    it passes repeats the default of its field. *)
Definition get_dual_supervision_training_config : result TrainingConfig.t :=
  TrainingConfig.__init__
    {| TrainingConfig.num_train_epochs := 8;
       TrainingConfig.per_device_train_batch_size := 6;
       TrainingConfig.per_device_eval_batch_size := 4;
       TrainingConfig.learning_rate := 5e-5%float;
       TrainingConfig.weight_decay := 0.01%float;
       TrainingConfig.lr_scheduler_type := "cosine";
       TrainingConfig.warmup_ratio := 0.05%float;
       TrainingConfig.warmup_steps := 100;
       TrainingConfig.gradient_accumulation_steps := 6;
       TrainingConfig.max_grad_norm := 1.0%float;
       TrainingConfig.fp16 := true;
       TrainingConfig.bf16 := false;
       TrainingConfig.logging_steps := 50;
       TrainingConfig.eval_steps := 250;
       TrainingConfig.save_steps := 500;
       TrainingConfig.dataloader_num_workers := 4;
       TrainingConfig.dataloader_pin_memory := true;
       TrainingConfig.remove_unused_columns := false;
       TrainingConfig.load_best_model_at_end := true;
       TrainingConfig.metric_for_best_model := "eval_global_cosine_mean";
       TrainingConfig.greater_is_better := true;
       TrainingConfig.patch_loss_weight := 1.0%float;
       TrainingConfig.global_loss_weight := 2.0%float;
       TrainingConfig.flow_matching_loss_weight := 1.0%float;
       TrainingConfig.use_cosine_similarity := false |}.

(** ** Configuration validation *)

(** What [validate_config_compatibility] can reach: its two arguments and
    the console. *)
Record Env : Type := mkEnv {
  model_config : BLIP3oDiTConfig.t;
  flow_config : FlowMatchingConfig.t;
  stdout : list string
}.

(** [print(line)]. *)
Definition print (line : string) : M Env unit :=
  modify (fun e => mkEnv (model_config e) (flow_config e)
                         (stdout e ++ [line])%list).

Definition validate_config_compatibility : M Env bool :=
  ((* Check dimension compatibility *)
   assert (fun e => BLIP3oDiTConfig.in_channels (model_config e)
                    =? FlowMatchingConfig.clip_dim (flow_config e))
       or (fun e => [Lit "Model input channels (";
                     FInt (BLIP3oDiTConfig.in_channels (model_config e));
                     Lit ") must match flow CLIP dim (";
                     FInt (FlowMatchingConfig.clip_dim (flow_config e));
                     Lit ")"]) ;;
   assert (fun e => BLIP3oDiTConfig.eva_embedding_size (model_config e)
                    =? FlowMatchingConfig.eva_dim (flow_config e))
       or (fun e => [Lit "Model EVA size (";
                     FInt (BLIP3oDiTConfig.eva_embedding_size (model_config e));
                     Lit ") must match flow EVA dim (";
                     FInt (FlowMatchingConfig.eva_dim (flow_config e));
                     Lit ")"]) ;;
   (* Check training compatibility *)
   assert (fun e => negb (BLIP3oDiTConfig.learn_sigma (model_config e)))
       or (fun _ => plain "Model must use flow matching (learn_sigma=False)") ;;
   print "✅ Configuration compatibility validated" ;;
   ret true)%py.

(** ** Preset configurations *)

(** The module-level names bound when the module is loaded. *)
Record Globals : Type := mkGlobals {
  BLIP3O_SMALL : BLIP3oDiTConfig.t;
  BLIP3O_DEFAULT : BLIP3oDiTConfig.t;
  BLIP3O_LARGE : BLIP3oDiTConfig.t;
  BLIP3O_DUAL_SUPERVISION : BLIP3oDiTConfig.t;
  FLOW_MATCHING_DUAL_SUPERVISION : FlowMatchingConfig.t;
  FLOW_MATCHING_ENHANCED : FlowMatchingConfig.t
}.

Definition and_then {A B} (r : result A) (k : A -> result B) : result B :=
  match r with
  | Ok a => k a
  | Raise e => Raise e
  end.

(** The module-level assignments, in order; the first exception aborts the
    import. *)
Definition load_module : result Globals :=
  and_then get_small_blip3o_config (fun small =>
  and_then get_default_blip3o_config (fun default =>
  and_then get_large_blip3o_config (fun large =>
  and_then (get_dual_supervision_config None no_kwargs) (fun dual =>
  and_then get_dual_supervision_flow_matching_config (fun flow_dual =>
  and_then get_enhanced_flow_matching_config (fun flow_enhanced =>
  Ok (mkGlobals small default large dual flow_dual flow_enhanced))))))).

(** [key in d] and [d[key]] on an insertion-ordered dict. *)
Fixpoint dict_get {V} (d : list (string * V)) (key : string) : option V :=
  match d with
  | [] => None
  | (k, v) :: d' => if String.eqb key k then Some v else dict_get d' key
  end.

Definition dict_keys {V} (d : list (string * V)) : list string := map fst d.

(** [sep.join(items)]. *)
Definition join (sep : string) (items : list string) : string :=
  String.concat sep items.

(** A preset configuration by name. *)
Definition get_preset_config (g : Globals) (preset_name : string)
  : result BLIP3oDiTConfig.t :=
  let presets :=
    [("small", BLIP3O_SMALL g);
     ("default", BLIP3O_DEFAULT g);
     ("large", BLIP3O_LARGE g);
     ("dual_supervision", BLIP3O_DUAL_SUPERVISION g)] in
  match dict_get presets preset_name with
  | None =>
      let available := join ", " (dict_keys presets) in
      Raise (ValueError [Lit "Unknown preset '"; FStr preset_name;
                         Lit "'. Available: "; FStr available])
  | Some config => Ok config
  end.

(** * Specification vocabulary

    The predicates the properties below are stated with, and the call
    sites and objects used as examples. *)

(** An f-string none of whose values is an int. *)
Fixpoint int_free (m : fstring) : bool :=
  match m with
  | [] => true
  | FInt _ :: _ => false
  | _ :: m' => int_free m'
  end.


(** An int of at most [int_max_str_digits] decimal digits. *)
Definition fits_str_digits (z : Z) : Prop :=
  Z.abs z < 10 ^ int_max_str_digits.

(** A computation that never writes its store. *)
Definition read_only {S A} (m : M S A) : Prop := forall s, snd (m s) = s.

(** A computation whose only exception is a failed assertion. *)
Definition raises_only_assertions {S A} (m : M S A) : Prop :=
  forall s, (exists a, fst (m s) = Ok a)
            \/ (exists msg, fst (m s) = Raise (AssertionError msg)).

(** Membership of the closed unit interval, as the source tests it. *)
Definition in_unit_interval (x : float) : Prop :=
  (0 <=? x)%float = true /\ (x <=? 1)%float = true.

(** A value that lies outside [0,1]: below 0, above 1, or not a number. *)
Definition outside_unit_interval (x : float) : Prop :=
  (x <? 0)%float = true \/ (1 <? x)%float = true \/ is_nan x = true.

(** The invariants of the model record, as the documentation lists them. *)
Definition valid_model (c : BLIP3oDiTConfig.t) : Prop :=
  0 < BLIP3oDiTConfig.dim c
  /\ 0 < BLIP3oDiTConfig.n_layers c
  /\ 0 < BLIP3oDiTConfig.n_heads c
  /\ 0 < BLIP3oDiTConfig.n_kv_heads c
  /\ (BLIP3oDiTConfig.n_heads c | BLIP3oDiTConfig.dim c)
  /\ 0 < BLIP3oDiTConfig.input_size c
  /\ 0 < BLIP3oDiTConfig.patch_size c
  /\ 0 < BLIP3oDiTConfig.in_channels c
  /\ 0 < BLIP3oDiTConfig.eva_embedding_size c
  /\ 0 < BLIP3oDiTConfig.mlp_hidden_dim c
  /\ 0 < BLIP3oDiTConfig.mlp_num_layers c
  /\ in_unit_interval (BLIP3oDiTConfig.mlp_dropout c)
  /\ In (BLIP3oDiTConfig.mlp_activation c) ["gelu"; "relu"; "silu"]
  /\ BLIP3oDiTConfig.learn_sigma c = false
  /\ BLIP3oDiTConfig.in_channels c = 1024
  /\ BLIP3oDiTConfig.eva_embedding_size c = 4096
  /\ BLIP3oDiTConfig.patch_size c = 1
  /\ BLIP3oDiTConfig.input_size c = 16.

(** The object as the constructor has stored it when validation starts. *)
Definition stored (kw : Kwargs) : BLIP3oDiTConfig.t :=
  {| BLIP3oDiTConfig.input_size := arg (kw_input_size kw) 16;
     BLIP3oDiTConfig.patch_size := arg (kw_patch_size kw) 1;
     BLIP3oDiTConfig.in_channels := arg (kw_in_channels kw) 1024;
     BLIP3oDiTConfig.dim := arg (kw_dim kw) 768;
     BLIP3oDiTConfig.n_layers := arg (kw_n_layers kw) 16;
     BLIP3oDiTConfig.n_heads := arg (kw_n_heads kw) 12;
     BLIP3oDiTConfig.n_kv_heads :=
       arg (arg (kw_n_kv_heads kw) None) (arg (kw_n_heads kw) 12);
     BLIP3oDiTConfig.qk_norm := arg (kw_qk_norm kw) true;
     BLIP3oDiTConfig.norm_eps := arg (kw_norm_eps kw) 1e-5%float;
     BLIP3oDiTConfig.eva_embedding_size := arg (kw_eva_embedding_size kw) 4096;
     BLIP3oDiTConfig.mlp_hidden_dim := arg (kw_mlp_hidden_dim kw) 2048;
     BLIP3oDiTConfig.mlp_num_layers := arg (kw_mlp_num_layers kw) 3;
     BLIP3oDiTConfig.mlp_dropout := arg (kw_mlp_dropout kw) 0.1%float;
     BLIP3oDiTConfig.mlp_activation := arg (kw_mlp_activation kw) "gelu";
     BLIP3oDiTConfig.learn_sigma := arg (kw_learn_sigma kw) false;
     BLIP3oDiTConfig._gradient_checkpointing :=
       arg (kw__gradient_checkpointing kw) true;
     BLIP3oDiTConfig.rope_base := arg (kw_rope_base kw) 10000.0%float;
     BLIP3oDiTConfig.rope_scaling := arg (kw_rope_scaling kw) None;
     BLIP3oDiTConfig.initializer_range :=
       arg (kw_initializer_range kw) 0.02%float;
     BLIP3oDiTConfig.use_flash_attention :=
       arg (kw_use_flash_attention kw) false;
     BLIP3oDiTConfig.attention_dropout :=
       arg (kw_attention_dropout kw) 0.0%float;
     BLIP3oDiTConfig.intermediate_size :=
       arg (arg (kw_intermediate_size kw) None) (4 * arg (kw_dim kw) 768);
     BLIP3oDiTConfig.hidden_dropout := arg (kw_hidden_dropout kw) 0.0%float;
     BLIP3oDiTConfig.max_position_embeddings :=
       arg (kw_max_position_embeddings kw) 1024 |}.

(** The invariants, read on the keyword arguments of a construction: each
    parameter is the caller's value when the key is given and the
    parameter's default otherwise. *)
Definition valid_overrides (kw : Kwargs) : Prop :=
  let input_size := arg (kw_input_size kw) 16 in
  let patch_size := arg (kw_patch_size kw) 1 in
  let in_channels := arg (kw_in_channels kw) 1024 in
  let dim := arg (kw_dim kw) 768 in
  let n_layers := arg (kw_n_layers kw) 16 in
  let n_heads := arg (kw_n_heads kw) 12 in
  let eva_embedding_size := arg (kw_eva_embedding_size kw) 4096 in
  let mlp_hidden_dim := arg (kw_mlp_hidden_dim kw) 2048 in
  let mlp_num_layers := arg (kw_mlp_num_layers kw) 3 in
  let mlp_dropout := arg (kw_mlp_dropout kw) 0.1%float in
  let mlp_activation := arg (kw_mlp_activation kw) "gelu" in
  let learn_sigma := arg (kw_learn_sigma kw) false in
  (* all size fields positive *)
  0 < dim /\ 0 < n_layers /\ 0 < n_heads
  /\ (forall v, kw_n_kv_heads kw = Some (Some v) -> 0 < v)
  /\ 0 < mlp_hidden_dim /\ 0 < mlp_num_layers
  (* hidden dimension divisible by head count *)
  /\ (n_heads | dim)
  (* dropout of the adaptation MLP within [0,1], activation enumerated *)
  /\ in_unit_interval mlp_dropout
  /\ In mlp_activation ["gelu"; "relu"; "silu"]
  (* flow matching, and the values pinned by the feature extractor *)
  /\ learn_sigma = false
  /\ in_channels = 1024 /\ eva_embedding_size = 4096
  /\ patch_size = 1 /\ input_size = 16.

(** Keyword mappings with one or two keys, for calls such as
    [BLIP3oDiTConfig(mlp_dropout=x)]; [dict_update kw (kwargs_... x)] is [kw]
    with that key overridden. *)
Definition kwargs_dim_n_heads (d h : Z) : Kwargs :=
  mkKwargs None None None (Some d) None (Some h) None None None None None None
           None None None None None None None None None None None None.

Definition kwargs_mlp_dropout (x : float) : Kwargs :=
  mkKwargs None None None None None None None None None None None None
           (Some x) None None None None None None None None None None None.

Definition kwargs_mlp_activation (a : string) : Kwargs :=
  mkKwargs None None None None None None None None None None None None
           None (Some a) None None None None None None None None None None.

Definition kwargs_attention_dropout (x : float) : Kwargs :=
  mkKwargs None None None None None None None None None None None None
           None None None None None None None None (Some x) None None None.

Definition kwargs_hidden_dropout (x : float) : Kwargs :=
  mkKwargs None None None None None None None None None None None None
           None None None None None None None None None None (Some x) None.

(** [0 <= sigma_min < sigma_max <= 10.0]. *)
Definition sigma_range_ok (f : FlowMatchingConfig.t) : Prop :=
  (0 <=? FlowMatchingConfig.sigma_min f)%float = true
  /\ (FlowMatchingConfig.sigma_min f <? FlowMatchingConfig.sigma_max f)%float
     = true
  /\ (FlowMatchingConfig.sigma_max f <=? 10)%float = true.

(** [0 <= min_timestep < max_timestep <= 1.0]. *)
Definition timestep_range_ok (f : FlowMatchingConfig.t) : Prop :=
  (0 <=? FlowMatchingConfig.min_timestep f)%float = true
  /\ (FlowMatchingConfig.min_timestep f
      <? FlowMatchingConfig.max_timestep f)%float = true
  /\ (FlowMatchingConfig.max_timestep f <=? 1)%float = true.

(** The ways to violate [0 <= sigma_min < sigma_max <= 10.0]. *)
Definition sigma_range_violated (f : FlowMatchingConfig.t) : Prop :=
  (FlowMatchingConfig.sigma_min f <? 0)%float = true
  \/ (FlowMatchingConfig.sigma_max f <=? FlowMatchingConfig.sigma_min f)%float
     = true
  \/ (10 <? FlowMatchingConfig.sigma_max f)%float = true
  \/ is_nan (FlowMatchingConfig.sigma_min f) = true
  \/ is_nan (FlowMatchingConfig.sigma_max f) = true.

(** The ways to violate [0 <= min_timestep < max_timestep <= 1.0]. *)
Definition timestep_range_violated (f : FlowMatchingConfig.t) : Prop :=
  (FlowMatchingConfig.min_timestep f <? 0)%float = true
  \/ (FlowMatchingConfig.max_timestep f
      <=? FlowMatchingConfig.min_timestep f)%float = true
  \/ (1 <? FlowMatchingConfig.max_timestep f)%float = true
  \/ is_nan (FlowMatchingConfig.min_timestep f) = true
  \/ is_nan (FlowMatchingConfig.max_timestep f) = true.

(** The invariants of the flow-matching record. *)
Definition valid_flow (f : FlowMatchingConfig.t) : Prop :=
  In (FlowMatchingConfig.prediction_type f) ["v_prediction"; "epsilon"]
  /\ In (FlowMatchingConfig.schedule_type f) ["linear"; "cosine"; "sigmoid"]
  /\ sigma_range_ok f
  /\ 0 < FlowMatchingConfig.clip_dim f
  /\ 0 < FlowMatchingConfig.eva_dim f
  /\ timestep_range_ok f.

(** The invariants of the training record. *)
Definition valid_training (f : TrainingConfig.t) : Prop :=
  0 < TrainingConfig.num_train_epochs f
  /\ 0 < TrainingConfig.per_device_train_batch_size f
  /\ (0 <? TrainingConfig.learning_rate f)%float = true
  /\ in_unit_interval (TrainingConfig.weight_decay f)
  /\ 0 < TrainingConfig.gradient_accumulation_steps f.

(** A training record with the defaults of the dataclass and the given
    weight decay: [TrainingConfig(weight_decay=x)]. *)
Definition training_with_weight_decay (x : float) : TrainingConfig.t :=
  TrainingConfig.mk 8 6 4 5e-5%float x "cosine" 0.05%float 100 6 1.0%float
    true false 50 250 500 4 true false true "eval_global_cosine_mean" true
    1.0%float 2.0%float 1.0%float false.

(** [FlowMatchingConfig(sigma_min=lo, sigma_max=hi)]. *)
Definition flow_with_sigma (lo hi : float) : FlowMatchingConfig.t :=
  FlowMatchingConfig.mk lo hi "v_prediction" "linear" 1024 4096
    0.01%float 0.1%float 0.05%float true 0.001%float 0.999%float.

(** [FlowMatchingConfig(min_timestep=lo, max_timestep=hi)]. *)
Definition flow_with_timesteps (lo hi : float) : FlowMatchingConfig.t :=
  FlowMatchingConfig.mk 1e-4%float 1.0%float "v_prediction" "linear" 1024 4096
    0.01%float 0.1%float 0.05%float true lo hi.

(** [FlowMatchingConfig(prediction_type=p, schedule_type=s)]. *)
Definition flow_with_kinds (p s : string) : FlowMatchingConfig.t :=
  FlowMatchingConfig.mk 1e-4%float 1.0%float p s 1024 4096
    0.01%float 0.1%float 0.05%float true 0.001%float 0.999%float.

(** The line [validate_config_compatibility] prints on success. *)
Definition success_line : string := "✅ Configuration compatibility validated".

(** The default model record with the given conditioning dimension, as an
    object: an attribute assigned after construction is not validated. *)
Definition model_with_eva (eva : Z) : BLIP3oDiTConfig.t :=
  BLIP3oDiTConfig.mk 16 1 1024 768 16 12 12 true 1e-5%float eva 2048 3
    0.1%float "gelu" false true 10000.0%float None 0.02%float false 0.0%float
    3072 0.0%float 1024.


(** The default flow record with the given conditioning dimension. *)
Definition flow_with_eva (eva : Z) : FlowMatchingConfig.t :=
  FlowMatchingConfig.mk 1e-4%float 1.0%float "v_prediction" "linear" 1024 eva
    0.01%float 0.1%float 0.05%float true 0.001%float 0.999%float.

(** The merge policy in words: the caller's value when the caller gives the
    key, else the preset's value when the preset has the key, else the
    fallback. *)
Definition merge_policy {A} (caller preset : option A) (fallback : A) : A :=
  match caller with
  | Some v => v
  | None =>
      match preset with
      | Some p => p
      | None => fallback
      end
  end.

(** The fallback of a key: the attribute of the base configuration when
    there is one, the default of the constructor's parameter otherwise. *)
Definition fallback {A} (base_config : option BLIP3oDiTConfig.t)
    (attribute : BLIP3oDiTConfig.t -> A) (default : A) : A :=
  match base_config with
  | Some b => attribute b
  | None => default
  end.

(** Two keyword mappings that agree on every key [_validate_config] reads:
    the grid, patch and channel sizes, the transformer and MLP shapes, the
    MLP dropout and activation, and [learn_sigma]. *)
Definition same_validated_keys (kw kw' : Kwargs) : Prop :=
  kw_input_size kw = kw_input_size kw'
  /\ kw_patch_size kw = kw_patch_size kw'
  /\ kw_in_channels kw = kw_in_channels kw'
  /\ kw_dim kw = kw_dim kw'
  /\ kw_n_layers kw = kw_n_layers kw'
  /\ kw_n_heads kw = kw_n_heads kw'
  /\ kw_n_kv_heads kw = kw_n_kv_heads kw'
  /\ kw_eva_embedding_size kw = kw_eva_embedding_size kw'
  /\ kw_mlp_hidden_dim kw = kw_mlp_hidden_dim kw'
  /\ kw_mlp_num_layers kw = kw_mlp_num_layers kw'
  /\ kw_mlp_dropout kw = kw_mlp_dropout kw'
  /\ kw_mlp_activation kw = kw_mlp_activation kw'
  /\ kw_learn_sigma kw = kw_learn_sigma kw'.

(** A model record with the four dual-supervision attributes set to the
    values [get_dual_supervision_config] writes, every other attribute
    kept. *)
Definition with_dual_supervision_values (c : BLIP3oDiTConfig.t)
  : BLIP3oDiTConfig.t :=
  {| BLIP3oDiTConfig.input_size := BLIP3oDiTConfig.input_size c;
     BLIP3oDiTConfig.patch_size := BLIP3oDiTConfig.patch_size c;
     BLIP3oDiTConfig.in_channels := BLIP3oDiTConfig.in_channels c;
     BLIP3oDiTConfig.dim := BLIP3oDiTConfig.dim c;
     BLIP3oDiTConfig.n_layers := BLIP3oDiTConfig.n_layers c;
     BLIP3oDiTConfig.n_heads := BLIP3oDiTConfig.n_heads c;
     BLIP3oDiTConfig.n_kv_heads := BLIP3oDiTConfig.n_kv_heads c;
     BLIP3oDiTConfig.qk_norm := BLIP3oDiTConfig.qk_norm c;
     BLIP3oDiTConfig.norm_eps := BLIP3oDiTConfig.norm_eps c;
     BLIP3oDiTConfig.eva_embedding_size :=
       BLIP3oDiTConfig.eva_embedding_size c;
     BLIP3oDiTConfig.mlp_hidden_dim := 2048;
     BLIP3oDiTConfig.mlp_num_layers := 3;
     BLIP3oDiTConfig.mlp_dropout := 0.1%float;
     BLIP3oDiTConfig.mlp_activation := BLIP3oDiTConfig.mlp_activation c;
     BLIP3oDiTConfig.learn_sigma := BLIP3oDiTConfig.learn_sigma c;
     BLIP3oDiTConfig._gradient_checkpointing := true;
     BLIP3oDiTConfig.rope_base := BLIP3oDiTConfig.rope_base c;
     BLIP3oDiTConfig.rope_scaling := BLIP3oDiTConfig.rope_scaling c;
     BLIP3oDiTConfig.initializer_range := BLIP3oDiTConfig.initializer_range c;
     BLIP3oDiTConfig.use_flash_attention :=
       BLIP3oDiTConfig.use_flash_attention c;
     BLIP3oDiTConfig.attention_dropout := BLIP3oDiTConfig.attention_dropout c;
     BLIP3oDiTConfig.intermediate_size := BLIP3oDiTConfig.intermediate_size c;
     BLIP3oDiTConfig.hidden_dropout := BLIP3oDiTConfig.hidden_dropout c;
     BLIP3oDiTConfig.max_position_embeddings :=
       BLIP3oDiTConfig.max_position_embeddings c |}.

(** A mapping that gives every parameter [_validate_config] does not read:
    [BLIP3oDiTConfig(qk_norm=.., norm_eps=.., ..)]. *)
Definition kwargs_unvalidated (qk gc flash : bool)
    (eps base range attn hidden : float) (scaling : option Dict)
    (size : option Z) (positions : Z) : Kwargs :=
  mkKwargs None None None None None None None (Some qk) (Some eps) None None
           None None None None (Some gc) (Some base) (Some scaling)
           (Some range) (Some flash) (Some attn) (Some size) (Some hidden)
           (Some positions).

(** * Properties *)

(** ** The method monad *)

Lemma assert_bind_run {S B} (cond : S -> bool) (msg : S -> fstring)
    (k : M S B) (s : S) :
  bind (assert_ cond msg) (fun _ => k) s
  = if cond s then k s else (Raise (assertion_failure (msg s)), s).
Proof. unfold bind, assert_. destruct (cond s); reflexivity. Qed.

Lemma assert_run {S} (cond : S -> bool) (msg : S -> fstring) (s : S) :
  assert_ cond msg s
  = if cond s then (Ok tt, s) else (Raise (assertion_failure (msg s)), s).
Proof. reflexivity. Qed.

Lemma read_only_ret {S A} (a : A) : read_only (@ret S A a).
Proof. intros s. reflexivity. Qed.

Lemma read_only_assert {S} (cond : S -> bool) (msg : S -> fstring) :
  read_only (assert_ cond msg).
Proof. intros s. unfold assert_. destruct (cond s); reflexivity. Qed.

Lemma read_only_bind {S A B} (m : M S A) (k : A -> M S B) :
  read_only m -> (forall a, read_only (k a)) -> read_only (bind m k).
Proof.
  intros Hm Hk s. unfold bind. specialize (Hm s).
  destruct (m s) as [[a | e] s']; simpl in *; subst s'.
  - apply Hk.
  - reflexivity.
Qed.

(** An f-string without int values evaluates to itself. *)
Lemma evaluate_int_free (m : fstring) :
  int_free m = true -> evaluate m = Ok m.
Proof.
  induction m as [| p m IH]; [reflexivity |].
  destruct p; simpl; intros H; try discriminate H;
    rewrite (IH H); reflexivity.
Qed.


(** The only exceptions of an evaluation are conversions over the limit. *)
Lemma evaluate_raises (m : fstring) (e : exn) :
  evaluate m = Raise e -> e = ValueError int_limit_message.
Proof.
  induction m as [| p m IH]; [discriminate |].
  destruct p; simpl; unfold str_int;
    try destruct (convertible z);
    destruct (evaluate m) eqn:E; intros H; try discriminate H;
    try (injection H as <-; reflexivity); apply IH; exact H.
Qed.

(** A failed assertion raises its assertion error or the conversion
    error. *)
Lemma assertion_failure_cases (m : fstring) :
  (evaluate m = Ok m /\ assertion_failure m = AssertionError m)
  \/ assertion_failure m = ValueError int_limit_message.
Proof.
  unfold assertion_failure. destruct (evaluate m) as [m' | e] eqn:E.
  - left. assert (m' = m) as ->; [| auto].
    revert m' E. induction m as [| p m IH]; intros m' E.
    + injection E as <-. reflexivity.
    + destruct p; simpl in E; unfold str_int in E;
        try destruct (convertible z); try discriminate E;
        destruct (evaluate m) as [r | ]; try discriminate E;
        injection E as <-; rewrite (IH r eq_refl); reflexivity.
  - right. exact (evaluate_raises m e E).
Qed.

Lemma assertions_assert {S} (cond : S -> bool) (msg : S -> fstring) :
  (forall s, int_free (msg s) = true) ->
  raises_only_assertions (assert_ cond msg).
Proof.
  intros Hfree s. unfold assert_, assertion_failure.
  destruct (cond s); simpl; eauto.
  rewrite (evaluate_int_free _ (Hfree s)). eauto.
Qed.

Lemma assertions_bind {S A B} (m : M S A) (k : A -> M S B) :
  raises_only_assertions m -> (forall a, raises_only_assertions (k a)) ->
  raises_only_assertions (bind m k).
Proof.
  intros Hm Hk s. unfold bind.
  destruct (Hm s) as [[a Ha] | [msg Hmsg]];
    destruct (m s) as [[a' | e] s']; simpl in *; try discriminate.
  - apply Hk.
  - injection Hmsg as ->. right. eauto.
Qed.

Create HintDb py.
#[local] Hint Resolve read_only_ret read_only_assert read_only_bind
  assertions_assert assertions_bind : py.
#[local] Hint Extern 1 (int_free _ = true) => reflexivity : py.

(** ** Comparisons of floats *)

Lemma SFcompare_antisym (a b : spec_float) :
  SFcompare b a = option_map CompOpp (SFcompare a b).
Proof.
  destruct a as [sa | sa | | sa ma ea], b as [sb | sb | | sb mb eb];
    simpl; try reflexivity;
    try (destruct sa; reflexivity); try (destruct sb; reflexivity);
    try (destruct sa, sb; reflexivity).
  destruct sa, sb; simpl; try reflexivity;
    rewrite (Z.compare_antisym ea eb);
    destruct (ea ?= eb)%Z; simpl; try reflexivity;
    rewrite (Pos.compare_cont_antisym ma mb Eq); simpl;
    try rewrite CompOpp_involutive; reflexivity.
Qed.

Lemma SFcompare_none (a b : spec_float) :
  SFcompare a b = None <-> a = S754_nan \/ b = S754_nan.
Proof.
  destruct a as [sa | sa | | sa ma ea], b as [sb | sb | | sb mb eb];
    simpl; split; intros H; try discriminate H; try tauto;
    try (destruct H as [H | H]; discriminate H);
    try (destruct sa; discriminate H); try (destruct sb; discriminate H);
    try (destruct sa, sb; discriminate H).
Qed.

Lemma SFcompare_refl (a : spec_float) :
  a <> S754_nan -> SFcompare a a = Some Eq.
Proof.
  destruct a as [sa | sa | | sa ma ea]; simpl; intros H;
    try reflexivity; try congruence.
  - destruct sa; reflexivity.
  - destruct sa; rewrite Z.compare_refl, Pos.compare_cont_refl; reflexivity.
Qed.

Lemma is_nan_spec (x : float) : is_nan x = true <-> Prim2SF x = S754_nan.
Proof.
  unfold is_nan. rewrite eqb_spec. unfold SFeqb. split.
  - intros H. destruct (Prim2SF x) eqn:E; try reflexivity;
      rewrite SFcompare_refl in H by discriminate; discriminate H.
  - intros ->. reflexivity.
Qed.

(** [x <= y] is false exactly when [y < x] or one of the two is not a
    number. *)
Lemma leb_false_iff (x y : float) :
  (x <=? y)%float = false
  <-> (y <? x)%float = true \/ is_nan x = true \/ is_nan y = true.
Proof.
  rewrite ltb_spec, leb_spec, !is_nan_spec. unfold SFltb, SFleb.
  rewrite (SFcompare_antisym (Prim2SF x) (Prim2SF y)).
  pose proof (SFcompare_none (Prim2SF x) (Prim2SF y)) as Hn.
  destruct (SFcompare (Prim2SF x) (Prim2SF y)) as [[ | | ] | ]; simpl; split;
    intros H; try discriminate H; try reflexivity; try tauto.
  all: try (destruct H as [H | H]; [discriminate H |];
            apply Hn in H; discriminate H).
Qed.

(** [x < y] is false exactly when [y <= x] or one of the two is not a
    number. *)
Lemma ltb_false_iff (x y : float) :
  (x <? y)%float = false
  <-> (y <=? x)%float = true \/ is_nan x = true \/ is_nan y = true.
Proof.
  rewrite ltb_spec, leb_spec, !is_nan_spec. unfold SFltb, SFleb.
  rewrite (SFcompare_antisym (Prim2SF x) (Prim2SF y)).
  pose proof (SFcompare_none (Prim2SF x) (Prim2SF y)) as Hn.
  destruct (SFcompare (Prim2SF x) (Prim2SF y)) as [[ | | ] | ]; simpl; split;
    intros H; try discriminate H; try reflexivity; try tauto.
  all: try (destruct H as [H | H]; [discriminate H |];
            apply Hn in H; discriminate H).
Qed.

Lemma not_true_false (b : bool) : b <> true <-> b = false.
Proof. destruct b; split; congruence. Qed.

(** Outside [0,1] is the complement of the test of the source. *)
Lemma outside_iff (x : float) :
  outside_unit_interval x <-> ~ in_unit_interval x.
Proof.
  unfold outside_unit_interval, in_unit_interval. split.
  - intros H [H0 H1].
    assert (E0 : (0 <=? x)%float = false \/ (x <=? 1)%float = false).
    { destruct H as [H | [H | H]].
      - left. apply leb_false_iff. auto.
      - right. apply leb_false_iff. auto.
      - left. apply leb_false_iff. auto. }
    destruct E0; congruence.
  - intros H.
    destruct (0 <=? x)%float eqn:E0.
    + destruct (x <=? 1)%float eqn:E1; [exfalso; auto |].
      apply leb_false_iff in E1.
      destruct E1 as [E1 | [E1 | E1]]; auto; discriminate E1.
    + apply leb_false_iff in E0.
      destruct E0 as [E0 | [E0 | E0]]; auto; discriminate E0.
Qed.

Lemma outside_not_inside (x : float) :
  outside_unit_interval x -> ~ in_unit_interval x.
Proof. apply outside_iff. Qed.

Lemma str_in_iff (x : string) (l : list string) :
  str_in x l = true <-> In x l.
Proof.
  unfold str_in. rewrite existsb_exists. split.
  - intros [y [Hy Heq]]. apply String.eqb_eq in Heq. subst. exact Hy.
  - intros H. exists x. split; [exact H | apply String.eqb_refl].
Qed.

Lemma str_in_false (x : string) (l : list string) :
  ~ In x l -> str_in x l = false.
Proof.
  intros H. destruct (str_in x l) eqn:E; [| reflexivity].
  apply str_in_iff in E. contradiction.
Qed.

(** ** Validation of the model record *)

(** Case analysis on the test of the next assertion. *)
Ltac next_check :=
  match goal with
  | |- context [if ?b then _ else _] => destruct b eqn:?
  | H : context [if ?b then _ else _] |- _ => destruct b eqn:?
  end.

Ltac run_asserts := repeat rewrite assert_bind_run; try rewrite assert_run.

Lemma divides_test (a b : Z) : 0 < b -> (a mod b =? 0) = true <-> (b | a).
Proof.
  intros Hb. rewrite Z.eqb_eq. apply Z.mod_divide. lia.
Qed.

Lemma unit_interval_test (x : float) :
  ((0.0 <=? x)%float && (x <=? 1.0)%float) = true <-> in_unit_interval x.
Proof. unfold in_unit_interval. apply andb_true_iff. Qed.

Lemma validate_config_read_only :
  read_only BLIP3oDiTConfig._validate_config.
Proof.
  unfold BLIP3oDiTConfig._validate_config. auto 40 with py.
Qed.

(** The one assertion of [_validate_config] whose message formats ints is
    the divisibility one: validation raises the conversion error exactly
    when that assertion is the first to fail and dim or n_heads has more
    digits than the limit allows. *)
Lemma validate_config_conversion_error (c : BLIP3oDiTConfig.t) (msg : fstring) :
  fst (BLIP3oDiTConfig._validate_config c) = Raise (ValueError msg)
  <-> msg = int_limit_message
      /\ 0 < BLIP3oDiTConfig.dim c
      /\ 0 < BLIP3oDiTConfig.n_layers c
      /\ 0 < BLIP3oDiTConfig.n_heads c
      /\ 0 < BLIP3oDiTConfig.n_kv_heads c
      /\ ~ (BLIP3oDiTConfig.n_heads c | BLIP3oDiTConfig.dim c)
      /\ (convertible (BLIP3oDiTConfig.dim c) = false
          \/ convertible (BLIP3oDiTConfig.n_heads c) = false).
Proof.
  unfold BLIP3oDiTConfig._validate_config. run_asserts. split.
  - intros H.
    do 4 (next_check; [| discriminate H]).
    repeat match goal with
           | E : (0 <? _) = true |- _ => apply Z.ltb_lt in E
           end.
    next_check.
    + exfalso. repeat (next_check; [| discriminate H]). discriminate H.
    + simpl in H. unfold assertion_failure in H. cbn [evaluate] in H.
      unfold str_int in H.
      assert (Hnd : ~ (BLIP3oDiTConfig.n_heads c | BLIP3oDiTConfig.dim c)).
      { intros Hd. apply divides_test in Hd; [congruence | assumption]. }
      destruct (convertible (BLIP3oDiTConfig.dim c)) eqn:Ed;
        [destruct (convertible (BLIP3oDiTConfig.n_heads c)) eqn:Eh |].
      * discriminate H.
      * injection H as <-. repeat split; auto.
      * injection H as <-. repeat split; auto.
  - intros (-> & Hd & Hl & Hh & Hkv & Hnd & Hbig).
    assert (Hdiv : (BLIP3oDiTConfig.dim c mod BLIP3oDiTConfig.n_heads c =? 0)
                   = false).
    { apply not_true_false. intros E. apply Hnd.
      apply divides_test in E; assumption. }
    apply Z.ltb_lt in Hd, Hl, Hh, Hkv. rewrite Hd, Hl, Hh, Hkv, Hdiv.
    simpl. unfold assertion_failure. cbn [evaluate]. unfold str_int.
    destruct Hbig as [E | E].
    + rewrite E. reflexivity.
    + rewrite E. destruct (convertible (BLIP3oDiTConfig.dim c)); reflexivity.
Qed.

(** Any other exception of [_validate_config] is an assertion error. *)
Lemma validate_config_exceptions (c : BLIP3oDiTConfig.t) (e : exn) :
  fst (BLIP3oDiTConfig._validate_config c) = Raise e ->
  (exists msg, e = AssertionError msg) \/ e = ValueError int_limit_message.
Proof.
  unfold BLIP3oDiTConfig._validate_config. run_asserts. intros H.
  repeat (next_check;
          [| simpl in H; injection H as <-;
             match goal with
             | |- context [assertion_failure ?m] =>
                 destruct (assertion_failure_cases m) as [[_ ->] | ->]; eauto
             end]).
  discriminate H.
Qed.

Lemma validate_config_assertions (c : BLIP3oDiTConfig.t) (e : exn) :
  convertible (BLIP3oDiTConfig.dim c) = true ->
  convertible (BLIP3oDiTConfig.n_heads c) = true ->
  fst (BLIP3oDiTConfig._validate_config c) = Raise e ->
  exists msg, e = AssertionError msg.
Proof.
  intros Hd Hh H.
  destruct (validate_config_exceptions c e H) as [Ha | ->]; [exact Ha |].
  apply validate_config_conversion_error in H.
  destruct H as (_ & _ & _ & _ & _ & _ & [E | E]); congruence.
Qed.

Lemma validate_config_ok (c : BLIP3oDiTConfig.t) :
  valid_model c -> BLIP3oDiTConfig._validate_config c = (Ok tt, c).
Proof.
  intros (Hd & Hl & Hh & Hkv & Hdiv & Hi & Hp & Hc & He & Hm & Hn & Hdrop
          & Hact & Hsig & Hc' & He' & Hp' & Hi').
  unfold BLIP3oDiTConfig._validate_config. run_asserts.
  apply Z.ltb_lt in Hd, Hl, Hkv, Hi, Hp, Hc, He, Hm, Hn.
  apply (divides_test _ _ Hh) in Hdiv. apply Z.ltb_lt in Hh.
  apply unit_interval_test in Hdrop. apply str_in_iff in Hact.
  apply Z.eqb_eq in Hc', He', Hp', Hi'.
  rewrite Hd, Hl, Hh, Hkv, Hdiv, Hi, Hp, Hc, He, Hm, Hn, Hdrop, Hact, Hsig,
    Hc', He', Hp', Hi'.
  reflexivity.
Qed.

Lemma validate_config_inv (c c' : BLIP3oDiTConfig.t) (r : unit) :
  BLIP3oDiTConfig._validate_config c = (Ok r, c') -> valid_model c.
Proof.
  unfold BLIP3oDiTConfig._validate_config. run_asserts. intros H.
  repeat (next_check; [| discriminate]).
  repeat match goal with
         | E : (0 <? _) = true |- _ => apply Z.ltb_lt in E
         end.
  repeat match goal with
         | E : (_ mod _ =? 0) = true |- _ =>
             apply divides_test in E; [| assumption]
         | E : (_ =? _) = true |- _ => apply Z.eqb_eq in E
         | E : (_ && _)%bool = true |- _ => apply unit_interval_test in E
         | E : str_in _ _ = true |- _ => apply str_in_iff in E
         | E : negb _ = true |- _ => apply negb_true_iff in E
         end.
  unfold valid_model.
  repeat match goal with |- _ /\ _ => split end; assumption.
Qed.

(** ** Construction of the model record *)

Lemma init_validates (kw : Kwargs) :
  BLIP3oDiTConfig.__init__ kw
  = match BLIP3oDiTConfig._validate_config (stored kw) with
    | (Ok _, self') => Ok self'
    | (Raise e, _) => Raise e
    end.
Proof.
  unfold BLIP3oDiTConfig.__init__, stored.
  destruct (kw_n_kv_heads kw) as [[kv | ] | ];
    destruct (kw_intermediate_size kw) as [[sz | ] | ]; reflexivity.
Qed.

Lemma init_ok (kw : Kwargs) :
  valid_model (stored kw) -> BLIP3oDiTConfig.__init__ kw = Ok (stored kw).
Proof.
  intros H. rewrite init_validates, (validate_config_ok _ H). reflexivity.
Qed.

Lemma init_inv (kw : Kwargs) (cfg : BLIP3oDiTConfig.t) :
  BLIP3oDiTConfig.__init__ kw = Ok cfg ->
  cfg = stored kw /\ valid_model cfg.
Proof.
  rewrite init_validates. intros H.
  pose proof (validate_config_read_only (stored kw)) as Hro.
  destruct (BLIP3oDiTConfig._validate_config (stored kw)) as [[r | e] s'] eqn:E;
    [| discriminate].
  simpl in Hro. subst s'. injection H as <-.
  split; [reflexivity | exact (validate_config_inv _ _ _ E)].
Qed.

(** An invalid object makes the constructor raise what validation
    raises. *)
Lemma init_raises (kw : Kwargs) :
  ~ valid_model (stored kw) ->
  exists e, BLIP3oDiTConfig.__init__ kw = Raise e
            /\ fst (BLIP3oDiTConfig._validate_config (stored kw)) = Raise e.
Proof.
  intros Hbad. rewrite init_validates.
  destruct (BLIP3oDiTConfig._validate_config (stored kw)) as [[r | e] s']
    eqn:E; simpl.
  - exfalso. apply Hbad. exact (validate_config_inv _ _ _ E).
  - eauto.
Qed.

Lemma init_raise_inv (kw : Kwargs) (e : exn) :
  BLIP3oDiTConfig.__init__ kw = Raise e ->
  fst (BLIP3oDiTConfig._validate_config (stored kw)) = Raise e.
Proof.
  rewrite init_validates.
  destruct (BLIP3oDiTConfig._validate_config (stored kw)) as [[r | e'] s'];
    simpl; intros H; [discriminate H | injection H as ->; reflexivity].
Qed.

(** When dim and n_heads are within the conversion limit, the exception is
    an assertion error. *)
Lemma init_raises_assertion (kw : Kwargs) :
  convertible (arg (kw_dim kw) 768) = true ->
  convertible (arg (kw_n_heads kw) 12) = true ->
  ~ valid_model (stored kw) ->
  exists msg, BLIP3oDiTConfig.__init__ kw = Raise (AssertionError msg).
Proof.
  intros Hd Hh Hbad. destruct (init_raises kw Hbad) as (e & He & Hv).
  destruct (validate_config_assertions (stored kw) e Hd Hh Hv) as [msg ->].
  eauto.
Qed.

Lemma valid_overrides_stored (kw : Kwargs) :
  valid_overrides kw -> valid_model (stored kw).
Proof.
  unfold valid_overrides, valid_model, stored. simpl.
  intros (Hd & Hl & Hh & Hkv & Hm & Hn & Hdiv & Hdrop & Hact & Hsig
          & Hc & He & Hp & Hi).
  repeat match goal with |- _ /\ _ => split end;
    try assumption; try lia.
  destruct (kw_n_kv_heads kw) as [[kv | ] | ]; simpl;
    [apply Hkv; reflexivity | assumption | assumption].
Qed.

(** Each single-key mapping holds its value under the key it is named
    after. *)
Lemma single_keys_placed (d h : Z) (x : float) (a : string) :
  kw_dim (kwargs_dim_n_heads d h) = Some d
  /\ kw_n_heads (kwargs_dim_n_heads d h) = Some h
  /\ kw_mlp_dropout (kwargs_mlp_dropout x) = Some x
  /\ kw_mlp_activation (kwargs_mlp_activation a) = Some a
  /\ kw_attention_dropout (kwargs_attention_dropout x) = Some x
  /\ kw_hidden_dropout (kwargs_hidden_dropout x) = Some x.
Proof. repeat split. Qed.

Lemma no_kwargs_valid : valid_overrides no_kwargs.
Proof.
  unfold valid_overrides, in_unit_interval; simpl.
  repeat match goal with |- _ /\ _ => split end;
    try reflexivity; try lia; try discriminate.
  - exists 64. reflexivity.
  - left. reflexivity.
Qed.

(** C1: for every keyword mapping that satisfies the documented invariants
    the constructor returns a record, without raising; the record holds the
    caller's value (or the default) in each validated field; its
    key-value head count is the head count when [n_kv_heads] is unset
    (absent or None), its feed-forward width is 4 * dim when
    [intermediate_size] is unset; [get_num_tokens] is the grid size squared
    and [get_head_dim] is dim divided by n_heads, exactly. *)
Theorem C1_construction_derives_fields (kw : Kwargs) :
  valid_overrides kw ->
  exists cfg,
    BLIP3oDiTConfig.__init__ kw = Ok cfg
    /\ BLIP3oDiTConfig.dim cfg = arg (kw_dim kw) 768
    /\ BLIP3oDiTConfig.n_heads cfg = arg (kw_n_heads kw) 12
    /\ BLIP3oDiTConfig.input_size cfg = arg (kw_input_size kw) 16
    /\ (arg (kw_n_kv_heads kw) None = None ->
        BLIP3oDiTConfig.n_kv_heads cfg = BLIP3oDiTConfig.n_heads cfg)
    /\ (forall v, kw_n_kv_heads kw = Some (Some v) ->
        BLIP3oDiTConfig.n_kv_heads cfg = v)
    /\ (arg (kw_intermediate_size kw) None = None ->
        BLIP3oDiTConfig.intermediate_size cfg = 4 * BLIP3oDiTConfig.dim cfg)
    /\ (forall v, kw_intermediate_size kw = Some (Some v) ->
        BLIP3oDiTConfig.intermediate_size cfg = v)
    /\ BLIP3oDiTConfig.get_num_tokens cfg
       = BLIP3oDiTConfig.input_size cfg * BLIP3oDiTConfig.input_size cfg
    /\ BLIP3oDiTConfig.get_head_dim cfg
       = BLIP3oDiTConfig.dim cfg / BLIP3oDiTConfig.n_heads cfg
    /\ BLIP3oDiTConfig.dim cfg
       = BLIP3oDiTConfig.n_heads cfg * BLIP3oDiTConfig.get_head_dim cfg.
Proof.
  intros Hvalid. exists (stored kw).
  split; [apply init_ok, valid_overrides_stored, Hvalid |].
  destruct Hvalid as (_ & _ & Hh & _ & _ & _ & Hdiv & _).
  cbv zeta in Hh, Hdiv.
  unfold BLIP3oDiTConfig.get_num_tokens, BLIP3oDiTConfig.get_head_dim.
  simpl. repeat match goal with |- _ /\ _ => split end; try reflexivity.
  - intros ->. reflexivity.
  - intros v ->. reflexivity.
  - intros ->. reflexivity.
  - intros v ->. reflexivity.
  - destruct Hdiv as [q Hq]. rewrite Hq, Z.div_mul by lia. lia.
Qed.

Lemma C1_construction_witness :
  valid_overrides no_kwargs
  /\ exists cfg,
       BLIP3oDiTConfig.__init__ no_kwargs = Ok cfg
       /\ BLIP3oDiTConfig.n_kv_heads cfg = 12
       /\ BLIP3oDiTConfig.intermediate_size cfg = 3072
       /\ BLIP3oDiTConfig.get_num_tokens cfg = 256
       /\ BLIP3oDiTConfig.get_head_dim cfg = 64.
Proof.
  split; [exact no_kwargs_valid |].
  destruct (C1_construction_derives_fields no_kwargs no_kwargs_valid)
    as (cfg & Hok & Hdim & Hheads & Hin & Hkv & _ & Hsz & _ & Htok & Hhd & _).
  exists cfg. simpl in *.
  rewrite Htok, Hhd, Hin, Hdim, Hheads, (Hkv eq_refl), (Hsz eq_refl), Hdim, Hheads.
  repeat split; try reflexivity; exact Hok.
Defined.


Lemma convertible_iff (z : Z) : convertible z = true <-> fits_str_digits z.
Proof. unfold convertible, fits_str_digits. apply Z.ltb_lt. Qed.

Lemma not_convertible_iff (z : Z) :
  convertible z = false <-> ~ fits_str_digits z.
Proof.
  rewrite <- convertible_iff. destruct (convertible z); split; congruence.
Qed.





(** C10: a record the constructor returns has the grid size, patch size,
    channel count and conditioning dimension pinned to 16, 1, 1024 and
    4096, is in flow-matching mode, and reports 256 tokens, whatever the
    keyword arguments were. *)
Theorem C10_constructed_record_is_pinned (kw : Kwargs)
    (cfg : BLIP3oDiTConfig.t) :
  BLIP3oDiTConfig.__init__ kw = Ok cfg ->
  BLIP3oDiTConfig.input_size cfg = 16
  /\ BLIP3oDiTConfig.patch_size cfg = 1
  /\ BLIP3oDiTConfig.in_channels cfg = 1024
  /\ BLIP3oDiTConfig.eva_embedding_size cfg = 4096
  /\ BLIP3oDiTConfig.learn_sigma cfg = false
  /\ BLIP3oDiTConfig.get_num_tokens cfg = 256.
Proof.
  intros H. apply init_inv in H. destruct H as [_ Hvalid].
  destruct Hvalid as (_ & _ & _ & _ & _ & _ & _ & _ & _ & _ & _ & _ & _
                      & Hsig & Hc & He & Hp & Hi).
  unfold BLIP3oDiTConfig.get_num_tokens. rewrite Hi.
  repeat split; assumption || reflexivity.
Qed.

Lemma C10_constructed_record_witness :
  exists cfg,
    BLIP3oDiTConfig.__init__ (kwargs_dim_n_heads 512 8) = Ok cfg
    /\ BLIP3oDiTConfig.input_size cfg = 16
    /\ BLIP3oDiTConfig.patch_size cfg = 1
    /\ BLIP3oDiTConfig.in_channels cfg = 1024
    /\ BLIP3oDiTConfig.eva_embedding_size cfg = 4096
    /\ BLIP3oDiTConfig.learn_sigma cfg = false
    /\ BLIP3oDiTConfig.get_num_tokens cfg = 256.
Proof.
  exists (stored (kwargs_dim_n_heads 512 8)).
  split; [reflexivity |].
  apply (C10_constructed_record_is_pinned (kwargs_dim_n_heads 512 8)).
  reflexivity.
Defined.

(** ** Validation of the flow-matching and training records *)

Lemma chain_test (a b c : bool) :
  (a && b && c)%bool = true <-> a = true /\ b = true /\ c = true.
Proof. destruct a, b, c; simpl; intuition congruence. Qed.

(** A chain [lo <= a < b <= hi] between two numbers fails exactly when [a]
    is below [lo], or [b] is not above [a], or [b] is above [hi], or one of
    [a], [b] is not a number. *)
Lemma chain_violated_iff (lo a b hi : float) :
  is_nan lo = false -> is_nan hi = false ->
  ((a <? lo)%float = true \/ (b <=? a)%float = true \/ (hi <? b)%float = true
   \/ is_nan a = true \/ is_nan b = true)
  <-> ~ ((lo <=? a)%float = true /\ (a <? b)%float = true
         /\ (b <=? hi)%float = true).
Proof.
  intros Hlo Hhi.
  pose proof (leb_false_iff lo a) as H1.
  pose proof (ltb_false_iff a b) as H2.
  pose proof (leb_false_iff b hi) as H3.
  rewrite Hlo in H1. rewrite Hhi in H3.
  destruct (lo <=? a)%float, (a <? b)%float, (b <=? hi)%float;
    split; intros H;
    try (exfalso; apply H; repeat split; reflexivity);
    try (intros (A & B & C); discriminate);
    try (destruct (proj1 H1 eq_refl) as [? | [? | ?]]; try discriminate; tauto);
    try (destruct (proj1 H2 eq_refl) as [? | [? | ?]]; tauto);
    try (destruct (proj1 H3 eq_refl) as [? | [? | ?]]; try discriminate; tauto).
  all: exfalso;
    destruct H as [H | [H | [H | [H | H]]]];
    try (assert (F : true = false) by (apply H1; auto); discriminate F);
    try (assert (F : true = false) by (apply H2; auto); discriminate F);
    try (assert (F : true = false) by (apply H3; auto); discriminate F).
Qed.

Lemma sigma_violated_iff (f : FlowMatchingConfig.t) :
  sigma_range_violated f <-> ~ sigma_range_ok f.
Proof. apply chain_violated_iff; reflexivity. Qed.

Lemma timestep_violated_iff (f : FlowMatchingConfig.t) :
  timestep_range_violated f <-> ~ timestep_range_ok f.
Proof. apply chain_violated_iff; reflexivity. Qed.

Lemma flow_post_init_read_only : read_only FlowMatchingConfig.__post_init__.
Proof.
  unfold FlowMatchingConfig.__post_init__. auto 20 with py.
Qed.

Lemma flow_post_init_assertions :
  raises_only_assertions FlowMatchingConfig.__post_init__.
Proof.
  unfold FlowMatchingConfig.__post_init__. auto 20 with py.
Qed.

Lemma flow_post_init_ok (f : FlowMatchingConfig.t) :
  valid_flow f -> FlowMatchingConfig.__post_init__ f = (Ok tt, f).
Proof.
  intros (Hp & Hs & Hsig & Hc & He & Ht).
  unfold FlowMatchingConfig.__post_init__. run_asserts.
  apply str_in_iff in Hp, Hs. apply chain_test in Hsig, Ht.
  apply Z.ltb_lt in Hc, He.
  rewrite Hp, Hs, Hsig, Hc, He, Ht. reflexivity.
Qed.

Lemma flow_post_init_inv (f f' : FlowMatchingConfig.t) (r : unit) :
  FlowMatchingConfig.__post_init__ f = (Ok r, f') -> valid_flow f.
Proof.
  unfold FlowMatchingConfig.__post_init__. run_asserts. intros H.
  repeat (next_check; [| discriminate]).
  repeat match goal with
         | E : (0 <? _) = true |- _ => apply Z.ltb_lt in E
         | E : (_ && _ && _)%bool = true |- _ => apply chain_test in E
         | E : str_in _ _ = true |- _ => apply str_in_iff in E
         end.
  unfold valid_flow, sigma_range_ok, timestep_range_ok.
  repeat match goal with |- _ /\ _ => split end; tauto.
Qed.

Lemma flow_init_ok (f : FlowMatchingConfig.t) :
  valid_flow f -> FlowMatchingConfig.__init__ f = Ok f.
Proof.
  intros H. unfold FlowMatchingConfig.__init__.
  rewrite (flow_post_init_ok _ H). reflexivity.
Qed.

Lemma flow_init_inv (f cfg : FlowMatchingConfig.t) :
  FlowMatchingConfig.__init__ f = Ok cfg -> cfg = f /\ valid_flow f.
Proof.
  unfold FlowMatchingConfig.__init__. intros H.
  pose proof (flow_post_init_read_only f) as Hro.
  destruct (FlowMatchingConfig.__post_init__ f) as [[r | e] s'] eqn:E;
    [| discriminate].
  simpl in Hro. subst s'. injection H as <-.
  split; [reflexivity | exact (flow_post_init_inv _ _ _ E)].
Qed.

Lemma flow_init_raises_assertion (f : FlowMatchingConfig.t) :
  ~ valid_flow f ->
  exists msg, FlowMatchingConfig.__init__ f = Raise (AssertionError msg).
Proof.
  intros Hbad. unfold FlowMatchingConfig.__init__.
  destruct (flow_post_init_assertions f) as [[a Ha] | [msg Hmsg]];
    destruct (FlowMatchingConfig.__post_init__ f) as [[r | e] s'] eqn:E;
    simpl in *; try discriminate.
  - exfalso. apply Hbad. exact (flow_post_init_inv _ _ _ E).
  - injection Hmsg as ->. eauto.
Qed.

Lemma training_post_init_read_only : read_only TrainingConfig.__post_init__.
Proof.
  unfold TrainingConfig.__post_init__. auto 20 with py.
Qed.

Lemma training_post_init_assertions :
  raises_only_assertions TrainingConfig.__post_init__.
Proof.
  unfold TrainingConfig.__post_init__. auto 20 with py.
Qed.

Lemma training_post_init_ok (f : TrainingConfig.t) :
  valid_training f -> TrainingConfig.__post_init__ f = (Ok tt, f).
Proof.
  intros (He & Hb & Hlr & Hwd & Hg).
  unfold TrainingConfig.__post_init__. run_asserts.
  apply Z.ltb_lt in He, Hb, Hg. apply unit_interval_test in Hwd.
  rewrite He, Hb, Hlr, Hwd, Hg. reflexivity.
Qed.

Lemma training_post_init_inv (f f' : TrainingConfig.t) (r : unit) :
  TrainingConfig.__post_init__ f = (Ok r, f') -> valid_training f.
Proof.
  unfold TrainingConfig.__post_init__. run_asserts. intros H.
  repeat (next_check; [| discriminate]).
  repeat match goal with
         | E : (0 <? _) = true |- _ => apply Z.ltb_lt in E
         | E : (_ && _)%bool = true |- _ => apply unit_interval_test in E
         end.
  unfold valid_training.
  repeat match goal with |- _ /\ _ => split end; assumption.
Qed.

Lemma training_init_ok (f : TrainingConfig.t) :
  valid_training f -> TrainingConfig.__init__ f = Ok f.
Proof.
  intros H. unfold TrainingConfig.__init__.
  rewrite (training_post_init_ok _ H). reflexivity.
Qed.

Lemma training_init_raises_assertion (f : TrainingConfig.t) :
  ~ valid_training f ->
  exists msg, TrainingConfig.__init__ f = Raise (AssertionError msg).
Proof.
  intros Hbad. unfold TrainingConfig.__init__.
  destruct (training_post_init_assertions f) as [[a Ha] | [msg Hmsg]];
    destruct (TrainingConfig.__post_init__ f) as [[r | e] s'] eqn:E;
    simpl in *; try discriminate.
  - exfalso. apply Hbad. exact (training_post_init_inv _ _ _ E).
  - injection Hmsg as ->. eauto.
Qed.

(** On a valid mapping whose [mlp_dropout] is replaced by a value that fails
    the interval test, validation reaches that test and stops there. *)
Lemma init_reaches_mlp_dropout (kw : Kwargs) (x : float) :
  valid_overrides kw -> ~ in_unit_interval x ->
  BLIP3oDiTConfig.__init__ (dict_update kw (kwargs_mlp_dropout x))
  = Raise (AssertionError (plain "MLP dropout must be between 0 and 1")).
Proof.
  intros Hvalid Hout.
  pose proof (valid_overrides_stored kw Hvalid) as Hm.
  destruct Hm as (Hd & Hl & Hh & Hkv & Hdiv & Hi & Hp & Hc & He & Hm & Hn & _).
  rewrite init_validates. unfold BLIP3oDiTConfig._validate_config.
  run_asserts. cbn in *.
  apply (divides_test _ _ Hh) in Hdiv.
  apply Z.ltb_lt in Hd, Hl, Hh, Hkv, Hi, Hp, Hc, He, Hm, Hn.
  rewrite Hd, Hl, Hh, Hkv, Hdiv, Hi, Hp, Hc, He, Hm, Hn.
  destruct ((0 <=? x)%float && (x <=? 1)%float)%bool eqn:E; [| reflexivity].
  apply unit_interval_test in E. contradiction.
Qed.

(** Likewise for a replaced [mlp_activation] outside the enumeration. *)
Lemma init_reaches_mlp_activation (kw : Kwargs) (a : string) :
  valid_overrides kw -> ~ In a ["gelu"; "relu"; "silu"] ->
  BLIP3oDiTConfig.__init__ (dict_update kw (kwargs_mlp_activation a))
  = Raise (AssertionError [Lit "Unknown activation: "; FStr a]).
Proof.
  intros Hvalid Hout.
  pose proof (valid_overrides_stored kw Hvalid) as Hm.
  destruct Hm as (Hd & Hl & Hh & Hkv & Hdiv & Hi & Hp & Hc & He & Hm & Hn
                  & Hdrop & _).
  rewrite init_validates. unfold BLIP3oDiTConfig._validate_config.
  run_asserts.
  apply (divides_test _ _ Hh) in Hdiv. apply unit_interval_test in Hdrop.
  apply Z.ltb_lt in Hd, Hl, Hh, Hkv, Hi, Hp, Hc, He, Hm, Hn.
  apply str_in_false in Hout. cbn in *.
  rewrite Hd, Hl, Hh, Hkv, Hdiv, Hi, Hp, Hc, He, Hm, Hn, Hdrop, Hout.
  reflexivity.
Qed.

Lemma unchecked_dropouts_valid (kw : Kwargs) (a h : float) :
  valid_overrides kw ->
  valid_overrides
    (dict_update (dict_update kw (kwargs_attention_dropout a))
                 (kwargs_hidden_dropout h)).
Proof.
  unfold valid_overrides. cbn. intros H. exact H.
Qed.

(** C4, as the code has it: a value outside [0,1] for [mlp_dropout] of the
    model record, or for [weight_decay] of the training record, makes
    construction raise (on otherwise valid fields it is the assertion error
    of that field; on arbitrary other keys of the model record it is an
    assertion error whenever dim and n_heads have at most 4300 digits);
    [attention_dropout] and [hidden_dropout] are stored as given, with no
    range check. *)
Theorem C4_range_checked_rates :
  (forall kw,
      outside_unit_interval (arg (kw_mlp_dropout kw) 0.1%float) ->
      (exists e, BLIP3oDiTConfig.__init__ kw = Raise e)
      /\ (fits_str_digits (arg (kw_dim kw) 768) ->
          fits_str_digits (arg (kw_n_heads kw) 12) ->
          exists msg,
            BLIP3oDiTConfig.__init__ kw = Raise (AssertionError msg)))
  /\ (forall kw x,
         valid_overrides kw -> outside_unit_interval x ->
         BLIP3oDiTConfig.__init__ (dict_update kw (kwargs_mlp_dropout x))
         = Raise (AssertionError
                    (plain "MLP dropout must be between 0 and 1")))
  /\ (forall f,
         outside_unit_interval (TrainingConfig.weight_decay f) ->
         exists msg, TrainingConfig.__init__ f = Raise (AssertionError msg))
  /\ (forall f,
         0 < TrainingConfig.num_train_epochs f ->
         0 < TrainingConfig.per_device_train_batch_size f ->
         (0 <? TrainingConfig.learning_rate f)%float = true ->
         outside_unit_interval (TrainingConfig.weight_decay f) ->
         TrainingConfig.__init__ f
         = Raise (AssertionError
                    (plain "Weight decay must be between 0 and 1")))
  /\ (forall kw a h,
         valid_overrides kw ->
         exists cfg,
           BLIP3oDiTConfig.__init__
             (dict_update (dict_update kw (kwargs_attention_dropout a))
                          (kwargs_hidden_dropout h)) = Ok cfg
           /\ BLIP3oDiTConfig.attention_dropout cfg = a
           /\ BLIP3oDiTConfig.hidden_dropout cfg = h).
Proof.
  repeat match goal with |- _ /\ _ => split end.
  - intros kw Hout.
    assert (Hbad : ~ valid_model (stored kw)).
    { intros (_ & _ & _ & _ & _ & _ & _ & _ & _ & _ & _ & Hdrop & _).
      exact (outside_not_inside _ Hout Hdrop). }
    split.
    + destruct (init_raises kw Hbad) as (e & He & _). eauto.
    + intros Hd Hh. apply init_raises_assertion;
        [apply convertible_iff, Hd | apply convertible_iff, Hh | exact Hbad].
  - intros kw x Hvalid Hout.
    apply init_reaches_mlp_dropout; [exact Hvalid |].
    apply outside_not_inside, Hout.
  - intros f Hout. apply training_init_raises_assertion.
    intros (_ & _ & _ & Hwd & _). exact (outside_not_inside _ Hout Hwd).
  - intros f He Hb Hlr Hout.
    unfold TrainingConfig.__init__, TrainingConfig.__post_init__.
    run_asserts. apply Z.ltb_lt in He, Hb. rewrite He, Hb, Hlr.
    destruct ((0 <=? TrainingConfig.weight_decay f)%float
              && (TrainingConfig.weight_decay f <=? 1)%float)%bool eqn:E;
      [| reflexivity].
    apply unit_interval_test in E.
    destruct (outside_not_inside _ Hout E).
  - intros kw a h Hvalid.
    pose proof (unchecked_dropouts_valid kw a h Hvalid) as Hv.
    eexists. split; [apply init_ok, valid_overrides_stored, Hv |].
    split; reflexivity.
Qed.

Lemma C4_range_checked_rates_witness :
  BLIP3oDiTConfig.__init__ (dict_update no_kwargs (kwargs_mlp_dropout 1.5%float))
  = Raise (AssertionError (plain "MLP dropout must be between 0 and 1"))
  /\ TrainingConfig.__init__ (training_with_weight_decay (-0.5)%float)
     = Raise (AssertionError (plain "Weight decay must be between 0 and 1")).
Proof.
  destruct C4_range_checked_rates as (_ & Hmlp & _ & Hwd & _).
  split.
  - apply (Hmlp no_kwargs 1.5%float no_kwargs_valid).
    right. left. reflexivity.
  - apply (Hwd (training_with_weight_decay (-0.5)%float)).
    + reflexivity.
    + reflexivity.
    + reflexivity.
    + left. reflexivity.
Defined.

(** C4 as stated fails: an attention dropout of 5.0 (and a hidden dropout
    of -2.0) lies outside [0,1] and the constructor returns the record. *)
Lemma C4_unchecked_dropout_counterexample :
  outside_unit_interval 5.0%float
  /\ outside_unit_interval (-2.0)%float
  /\ BLIP3oDiTConfig.__init__ (kwargs_attention_dropout 5.0%float)
     = Ok (stored (kwargs_attention_dropout 5.0%float))
  /\ BLIP3oDiTConfig.attention_dropout
       (stored (kwargs_attention_dropout 5.0%float)) = 5.0%float
  /\ BLIP3oDiTConfig.__init__ (kwargs_hidden_dropout (-2.0)%float)
     = Ok (stored (kwargs_hidden_dropout (-2.0)%float))
  /\ BLIP3oDiTConfig.hidden_dropout
       (stored (kwargs_hidden_dropout (-2.0)%float)) = (-2.0)%float.
Proof.
  repeat match goal with |- _ /\ _ => split end; try reflexivity.
  - right. left. reflexivity.
  - left. reflexivity.
Qed.

(** C6: the flow-matching constructor returns a record only when
    [0 <= sigma_min < sigma_max <= 10.0] and
    [0 <= min_timestep < max_timestep <= 1.0]; when the sigma values or the
    timestep values violate their ordering or their bounds it raises an
    assertion error (the one of that range when no earlier test fails); and
    when both chains and the other invariants hold it returns the record. *)
Theorem C6_flow_ranges :
  (forall f cfg,
      FlowMatchingConfig.__init__ f = Ok cfg ->
      cfg = f /\ sigma_range_ok f /\ timestep_range_ok f)
  /\ (forall f,
         sigma_range_violated f \/ timestep_range_violated f ->
         exists msg,
           FlowMatchingConfig.__init__ f = Raise (AssertionError msg))
  /\ (forall f,
         In (FlowMatchingConfig.prediction_type f) ["v_prediction"; "epsilon"] ->
         In (FlowMatchingConfig.schedule_type f)
            ["linear"; "cosine"; "sigmoid"] ->
         sigma_range_violated f ->
         FlowMatchingConfig.__init__ f
         = Raise (AssertionError
                    [Lit "Invalid sigma range: [";
                     FFloat (FlowMatchingConfig.sigma_min f); Lit ", ";
                     FFloat (FlowMatchingConfig.sigma_max f); Lit "]"]))
  /\ (forall f,
         In (FlowMatchingConfig.prediction_type f) ["v_prediction"; "epsilon"] ->
         In (FlowMatchingConfig.schedule_type f)
            ["linear"; "cosine"; "sigmoid"] ->
         sigma_range_ok f ->
         0 < FlowMatchingConfig.clip_dim f ->
         0 < FlowMatchingConfig.eva_dim f ->
         timestep_range_violated f ->
         FlowMatchingConfig.__init__ f
         = Raise (AssertionError (plain "Invalid timestep range")))
  /\ (forall f, valid_flow f -> FlowMatchingConfig.__init__ f = Ok f).
Proof.
  repeat match goal with |- _ /\ _ => split end.
  - intros f cfg H. apply flow_init_inv in H.
    destruct H as [Heq (_ & _ & Hsig & _ & _ & Ht)]. auto.
  - intros f Hbad. apply flow_init_raises_assertion.
    intros (_ & _ & Hsig & _ & _ & Ht).
    destruct Hbad as [Hbad | Hbad].
    + apply sigma_violated_iff in Hbad. contradiction.
    + apply timestep_violated_iff in Hbad. contradiction.
  - intros f Hp Hs Hbad. apply sigma_violated_iff in Hbad.
    unfold FlowMatchingConfig.__init__, FlowMatchingConfig.__post_init__.
    run_asserts. apply str_in_iff in Hp, Hs. rewrite Hp, Hs.
    next_check; [| reflexivity].
    exfalso. apply Hbad. apply chain_test. assumption.
  - intros f Hp Hs Hsig Hc He Hbad. apply timestep_violated_iff in Hbad.
    unfold FlowMatchingConfig.__init__, FlowMatchingConfig.__post_init__.
    run_asserts. apply str_in_iff in Hp, Hs. apply chain_test in Hsig.
    apply Z.ltb_lt in Hc, He. rewrite Hp, Hs, Hsig, Hc, He.
    next_check; [| reflexivity].
    exfalso. apply Hbad. apply chain_test. assumption.
  - apply flow_init_ok.
Qed.

Lemma flow_defaults_valid : valid_flow FlowMatchingConfig.defaults.
Proof.
  unfold valid_flow, sigma_range_ok, timestep_range_ok. simpl.
  repeat match goal with |- _ /\ _ => split end;
    try reflexivity; auto.
Qed.

Lemma C6_flow_ranges_witness :
  FlowMatchingConfig.__init__ FlowMatchingConfig.defaults
  = Ok FlowMatchingConfig.defaults
  /\ sigma_range_ok FlowMatchingConfig.defaults
  /\ FlowMatchingConfig.__init__ (flow_with_sigma 2.0%float 1.0%float)
     = Raise (AssertionError
                [Lit "Invalid sigma range: ["; FFloat 2.0%float; Lit ", ";
                 FFloat 1.0%float; Lit "]"])
  /\ FlowMatchingConfig.__init__ (flow_with_sigma 0.5%float 11.0%float)
     = Raise (AssertionError
                [Lit "Invalid sigma range: ["; FFloat 0.5%float; Lit ", ";
                 FFloat 11.0%float; Lit "]"])
  /\ FlowMatchingConfig.__init__ (flow_with_timesteps 0.5%float 1.5%float)
     = Raise (AssertionError (plain "Invalid timestep range")).
Proof.
  destruct C6_flow_ranges as (Honly & _ & Hsig & Ht & Hok).
  pose proof (Hok _ flow_defaults_valid) as Hdef.
  split; [exact Hdef |].
  split; [exact (proj1 (proj2 (Honly _ _ Hdef))) |].
  split; [| split].
  - apply (Hsig (flow_with_sigma 2.0%float 1.0%float)); simpl; auto.
    right. left. reflexivity.
  - apply (Hsig (flow_with_sigma 0.5%float 11.0%float)); simpl; auto.
    right. right. left. reflexivity.
  - apply (Ht (flow_with_timesteps 0.5%float 1.5%float)); simpl; auto.
    + repeat split.
    + reflexivity.
    + reflexivity.
    + right. right. left. reflexivity.
Defined.

(** C7: a categorical value outside its enumeration makes construction
    raise an assertion error.  For [prediction_type], the first test of the
    flow-matching record, the message always carries the value; for
    [schedule_type] and for [mlp_activation] it does whenever no earlier
    test fails.  On arbitrary other keys of the model record construction
    still raises, an assertion error whenever dim and n_heads have at most
    4300 digits. *)
Theorem C7_categorical_fields :
  (forall kw,
      ~ In (arg (kw_mlp_activation kw) "gelu") ["gelu"; "relu"; "silu"] ->
      (exists e, BLIP3oDiTConfig.__init__ kw = Raise e)
      /\ (fits_str_digits (arg (kw_dim kw) 768) ->
          fits_str_digits (arg (kw_n_heads kw) 12) ->
          exists msg,
            BLIP3oDiTConfig.__init__ kw = Raise (AssertionError msg)))
  /\ (forall kw a,
         valid_overrides kw -> ~ In a ["gelu"; "relu"; "silu"] ->
         BLIP3oDiTConfig.__init__ (dict_update kw (kwargs_mlp_activation a))
         = Raise (AssertionError [Lit "Unknown activation: "; FStr a]))
  /\ (forall f,
         ~ In (FlowMatchingConfig.prediction_type f)
              ["v_prediction"; "epsilon"] ->
         FlowMatchingConfig.__init__ f
         = Raise (AssertionError
                    [Lit "Invalid prediction type: ";
                     FStr (FlowMatchingConfig.prediction_type f)]))
  /\ (forall f,
         ~ In (FlowMatchingConfig.schedule_type f)
              ["linear"; "cosine"; "sigmoid"] ->
         exists msg,
           FlowMatchingConfig.__init__ f = Raise (AssertionError msg))
  /\ (forall f,
         In (FlowMatchingConfig.prediction_type f)
            ["v_prediction"; "epsilon"] ->
         ~ In (FlowMatchingConfig.schedule_type f)
              ["linear"; "cosine"; "sigmoid"] ->
         FlowMatchingConfig.__init__ f
         = Raise (AssertionError
                    [Lit "Invalid schedule type: ";
                     FStr (FlowMatchingConfig.schedule_type f)])).
Proof.
  repeat match goal with |- _ /\ _ => split end.
  - intros kw Hout.
    assert (Hbad : ~ valid_model (stored kw)).
    { intros (_ & _ & _ & _ & _ & _ & _ & _ & _ & _ & _ & _ & Hact & _).
      exact (Hout Hact). }
    split.
    + destruct (init_raises kw Hbad) as (e & He & _). eauto.
    + intros Hd Hh. apply init_raises_assertion;
        [apply convertible_iff, Hd | apply convertible_iff, Hh | exact Hbad].
  - apply init_reaches_mlp_activation.
  - intros f Hout.
    unfold FlowMatchingConfig.__init__, FlowMatchingConfig.__post_init__.
    run_asserts. rewrite (str_in_false _ _ Hout). reflexivity.
  - intros f Hout. apply flow_init_raises_assertion.
    intros (_ & Hs & _). exact (Hout Hs).
  - intros f Hp Hout.
    unfold FlowMatchingConfig.__init__, FlowMatchingConfig.__post_init__.
    run_asserts. apply str_in_iff in Hp.
    rewrite Hp, (str_in_false _ _ Hout). reflexivity.
Qed.

Ltac not_listed :=
  simpl; intros H;
  repeat match type of H with
         | _ \/ _ => destruct H as [H | H]; [discriminate H |]
         end; exact H.

Lemma C7_categorical_fields_witness :
  BLIP3oDiTConfig.__init__ (dict_update no_kwargs (kwargs_mlp_activation "tanh"))
  = Raise (AssertionError [Lit "Unknown activation: "; FStr "tanh"])
  /\ FlowMatchingConfig.__init__ (flow_with_kinds "x_prediction" "linear")
     = Raise (AssertionError [Lit "Invalid prediction type: ";
                              FStr "x_prediction"])
  /\ FlowMatchingConfig.__init__ (flow_with_kinds "epsilon" "quadratic")
     = Raise (AssertionError [Lit "Invalid schedule type: ";
                              FStr "quadratic"])
  /\ render (fun _ => "") [Lit "Unknown activation: "; FStr "tanh"]
     = "Unknown activation: tanh".
Proof.
  destruct C7_categorical_fields as (_ & Hact & Hpred & _ & Hsched).
  repeat match goal with |- _ /\ _ => split end.
  - apply (Hact no_kwargs "tanh" no_kwargs_valid). not_listed.
  - apply (Hpred (flow_with_kinds "x_prediction" "linear")). not_listed.
  - apply (Hsched (flow_with_kinds "epsilon" "quadratic")).
    + simpl. auto.
    + not_listed.
  - reflexivity.
Defined.

(** ** Cross-record validation *)

(** The success path of the check. *)
Lemma compatibility_ok (e : Env) :
  BLIP3oDiTConfig.in_channels (model_config e)
  = FlowMatchingConfig.clip_dim (flow_config e) ->
  BLIP3oDiTConfig.eva_embedding_size (model_config e)
  = FlowMatchingConfig.eva_dim (flow_config e) ->
  BLIP3oDiTConfig.learn_sigma (model_config e) = false ->
  validate_config_compatibility e
  = (Ok true,
     mkEnv (model_config e) (flow_config e) (stdout e ++ [success_line])%list).
Proof.
  intros Hc He Hs. unfold validate_config_compatibility, success_line.
  run_asserts. apply Z.eqb_eq in Hc, He. rewrite Hc, He, Hs. reflexivity.
Qed.

Lemma compatibility_ok_inv (e : Env) (b : bool) :
  fst (validate_config_compatibility e) = Ok b ->
  BLIP3oDiTConfig.in_channels (model_config e)
  = FlowMatchingConfig.clip_dim (flow_config e)
  /\ BLIP3oDiTConfig.eva_embedding_size (model_config e)
     = FlowMatchingConfig.eva_dim (flow_config e)
  /\ BLIP3oDiTConfig.learn_sigma (model_config e) = false.
Proof.
  unfold validate_config_compatibility. run_asserts. intros H.
  repeat (next_check; [| discriminate]).
  repeat match goal with
         | E : (_ =? _) = true |- _ => apply Z.eqb_eq in E
         | E : negb _ = true |- _ => apply negb_true_iff in E
         end.
  auto.
Qed.







(** C9: validating a valid record a second time gives the result of the
    first call, and no field of a record changes.  For the model record:
    after a successful [_validate_config] the object is the one it was, and
    a second call succeeds on it.  For the cross-record check: after a
    successful call both records are the ones they were, and a second call
    returns True again and leaves them so; only the console grows, by the
    success line, once per call. *)
Theorem C9_validation_idempotent :
  (forall c,
      fst (BLIP3oDiTConfig._validate_config c) = Ok tt ->
      snd (BLIP3oDiTConfig._validate_config c) = c
      /\ BLIP3oDiTConfig._validate_config
           (snd (BLIP3oDiTConfig._validate_config c))
         = BLIP3oDiTConfig._validate_config c)
  /\ (forall e,
         fst (validate_config_compatibility e) = Ok true ->
         fst (validate_config_compatibility
                (snd (validate_config_compatibility e))) = Ok true
         /\ model_config (snd (validate_config_compatibility e))
            = model_config e
         /\ flow_config (snd (validate_config_compatibility e))
            = flow_config e
         /\ model_config (snd (validate_config_compatibility
                                 (snd (validate_config_compatibility e))))
            = model_config e
         /\ flow_config (snd (validate_config_compatibility
                                (snd (validate_config_compatibility e))))
            = flow_config e
         /\ stdout (snd (validate_config_compatibility
                           (snd (validate_config_compatibility e))))
            = (stdout e ++ [success_line; success_line])%list).
Proof.
  split.
  - intros c _. rewrite (validate_config_read_only c). split; reflexivity.
  - intros e H.
    destruct (compatibility_ok_inv e true H) as (Hc & He & Hs).
    rewrite (compatibility_ok e Hc He Hs). simpl.
    rewrite (compatibility_ok
               (mkEnv (model_config e) (flow_config e)
                      (stdout e ++ [success_line])%list))
      by (simpl; assumption).
    simpl.
    rewrite <- app_assoc. repeat split; reflexivity.
Qed.

Lemma C9_validation_idempotent_witness :
  (snd (BLIP3oDiTConfig._validate_config (model_with_eva 4096))
   = model_with_eva 4096
   /\ BLIP3oDiTConfig._validate_config
        (snd (BLIP3oDiTConfig._validate_config (model_with_eva 4096)))
      = (Ok tt, model_with_eva 4096))
  /\ fst (validate_config_compatibility
            (snd (validate_config_compatibility
                    (mkEnv (model_with_eva 4096) (flow_with_eva 4096) []))))
     = Ok true.
Proof.
  destruct C9_validation_idempotent as [Hmodel Hpair].
  split.
  - destruct (Hmodel (model_with_eva 4096)) as [Hsame Hagain];
      [reflexivity |].
    split; [exact Hsame | rewrite Hagain; reflexivity].
  - apply (Hpair (mkEnv (model_with_eva 4096) (flow_with_eva 4096) [])).
    reflexivity.
Defined.

(** ** Presets *)

Lemma unknown_preset (g : Globals) (name : string) :
  ~ In name ["small"; "default"; "large"; "dual_supervision"] ->
  get_preset_config g name
  = Raise (ValueError
             [Lit "Unknown preset '"; FStr name; Lit "'. Available: ";
              FStr "small, default, large, dual_supervision"]).
Proof.
  intros Hout. unfold get_preset_config. cbn [dict_get].
  repeat match goal with
         | |- context [String.eqb name ?k] =>
             destruct (String.eqb_spec name k) as [-> | _];
             [exfalso; apply Hout; simpl; tauto |]
         end.
  reflexivity.
Qed.

(** C2: loading the module binds the presets; [get_preset_config("small")]
    returns the record bound to BLIP3O_SMALL, whose hidden dimension is 512
    with 8 layers and 8 heads; a name outside the four preset names raises
    ValueError, and the text of its message is the unknown name followed by
    the list small, default, large, dual_supervision. *)
Theorem C2_preset_lookup :
  exists g,
    load_module = Ok g
    /\ (exists cfg,
           get_preset_config g "small" = Ok cfg
           /\ cfg = BLIP3O_SMALL g
           /\ BLIP3oDiTConfig.dim cfg = 512
           /\ BLIP3oDiTConfig.n_layers cfg = 8
           /\ BLIP3oDiTConfig.n_heads cfg = 8)
    /\ (forall name,
           ~ In name ["small"; "default"; "large"; "dual_supervision"] ->
           exists msg,
             get_preset_config g name = Raise (ValueError msg)
             /\ forall float_repr,
                 render float_repr msg
                 = "Unknown preset '" ++ name
                   ++ "'. Available: small, default, large, dual_supervision")
    /\ get_preset_config g "bogus"
       = Raise (ValueError
                  [Lit "Unknown preset '"; FStr "bogus"; Lit "'. Available: ";
                   FStr "small, default, large, dual_supervision"]).
Proof.
  destruct load_module as [g | e] eqn:E; vm_compute in E; [| discriminate E].
  injection E as <-. eexists. split; [reflexivity |].
  split; [| split].
  - eexists. split; [reflexivity |]. repeat split.
  - intros name Hout. eexists. split; [apply unknown_preset, Hout |].
    intros float_repr. reflexivity.
  - reflexivity.
Qed.

Lemma C2_preset_lookup_witness :
  exists g,
    load_module = Ok g
    /\ forall float_repr,
        exists msg,
          get_preset_config g "tiny" = Raise (ValueError msg)
          /\ render float_repr msg
             = "Unknown preset 'tiny'. Available: small, default, large, dual_supervision".
Proof.
  destruct C2_preset_lookup as (g & Hload & _ & Hunknown & _).
  exists g. split; [exact Hload |]. intros float_repr.
  destruct (Hunknown "tiny") as (msg & Hraise & Htext).
  - simpl. intros H.
    repeat match type of H with
           | _ \/ _ => destruct H as [H | H]; [discriminate H |]
           end; exact H.
  - exists msg. split; [exact Hraise | exact (Htext float_repr)].
Defined.

(** ** The dual-supervision merge *)

Lemma dual_supervision_stored (base_config : option BLIP3oDiTConfig.t)
    (kwargs : Kwargs) (cfg : BLIP3oDiTConfig.t) :
  get_dual_supervision_config base_config kwargs = Ok cfg ->
  cfg = stored (match base_config with
                | Some b =>
                    dict_update (config_dict_of b)
                                (dict_update dual_supervision_keys kwargs)
                | None => dict_update dual_supervision_keys kwargs
                end).
Proof.
  unfold get_dual_supervision_config.
  destruct base_config as [b | ]; intros H; apply init_inv in H; apply H.
Qed.

(** C8: in the record [get_dual_supervision_config] returns, every
    parameter follows the merge policy.  The caller's value wins over the
    four preset keys and over the base configuration; a key the caller
    leaves out takes the preset's value if it is one of the four, and
    otherwise the base configuration's attribute or, without a base
    configuration, the constructor's default.  For [n_kv_heads] and
    [intermediate_size] the value so chosen may be None, and the record then
    holds the derived value. *)
Theorem C8_dual_supervision_merge (base_config : option BLIP3oDiTConfig.t)
    (kwargs : Kwargs) (cfg : BLIP3oDiTConfig.t) :
  get_dual_supervision_config base_config kwargs = Ok cfg ->
  BLIP3oDiTConfig.input_size cfg
  = merge_policy (kw_input_size kwargs) None
      (fallback base_config BLIP3oDiTConfig.input_size 16)
  /\ BLIP3oDiTConfig.patch_size cfg
     = merge_policy (kw_patch_size kwargs) None
         (fallback base_config BLIP3oDiTConfig.patch_size 1)
  /\ BLIP3oDiTConfig.in_channels cfg
     = merge_policy (kw_in_channels kwargs) None
         (fallback base_config BLIP3oDiTConfig.in_channels 1024)
  /\ BLIP3oDiTConfig.dim cfg
     = merge_policy (kw_dim kwargs) None
         (fallback base_config BLIP3oDiTConfig.dim 768)
  /\ BLIP3oDiTConfig.n_layers cfg
     = merge_policy (kw_n_layers kwargs) None
         (fallback base_config BLIP3oDiTConfig.n_layers 16)
  /\ BLIP3oDiTConfig.n_heads cfg
     = merge_policy (kw_n_heads kwargs) None
         (fallback base_config BLIP3oDiTConfig.n_heads 12)
  /\ BLIP3oDiTConfig.n_kv_heads cfg
     = arg (merge_policy (kw_n_kv_heads kwargs) None
              (fallback base_config
                 (fun b => Some (BLIP3oDiTConfig.n_kv_heads b)) None))
           (BLIP3oDiTConfig.n_heads cfg)
  /\ BLIP3oDiTConfig.qk_norm cfg
     = merge_policy (kw_qk_norm kwargs) None
         (fallback base_config BLIP3oDiTConfig.qk_norm true)
  /\ BLIP3oDiTConfig.norm_eps cfg
     = merge_policy (kw_norm_eps kwargs) None
         (fallback base_config BLIP3oDiTConfig.norm_eps 1e-5%float)
  /\ BLIP3oDiTConfig.eva_embedding_size cfg
     = merge_policy (kw_eva_embedding_size kwargs) None
         (fallback base_config BLIP3oDiTConfig.eva_embedding_size 4096)
  /\ BLIP3oDiTConfig.mlp_hidden_dim cfg
     = merge_policy (kw_mlp_hidden_dim kwargs) (Some 2048)
         (fallback base_config BLIP3oDiTConfig.mlp_hidden_dim 2048)
  /\ BLIP3oDiTConfig.mlp_num_layers cfg
     = merge_policy (kw_mlp_num_layers kwargs) (Some 3)
         (fallback base_config BLIP3oDiTConfig.mlp_num_layers 3)
  /\ BLIP3oDiTConfig.mlp_dropout cfg
     = merge_policy (kw_mlp_dropout kwargs) (Some 0.1%float)
         (fallback base_config BLIP3oDiTConfig.mlp_dropout 0.1%float)
  /\ BLIP3oDiTConfig.mlp_activation cfg
     = merge_policy (kw_mlp_activation kwargs) None
         (fallback base_config BLIP3oDiTConfig.mlp_activation "gelu")
  /\ BLIP3oDiTConfig.learn_sigma cfg
     = merge_policy (kw_learn_sigma kwargs) None
         (fallback base_config BLIP3oDiTConfig.learn_sigma false)
  /\ BLIP3oDiTConfig._gradient_checkpointing cfg
     = merge_policy (kw__gradient_checkpointing kwargs) (Some true)
         (fallback base_config BLIP3oDiTConfig._gradient_checkpointing true)
  /\ BLIP3oDiTConfig.rope_base cfg
     = merge_policy (kw_rope_base kwargs) None
         (fallback base_config BLIP3oDiTConfig.rope_base 10000.0%float)
  /\ BLIP3oDiTConfig.rope_scaling cfg
     = merge_policy (kw_rope_scaling kwargs) None
         (fallback base_config BLIP3oDiTConfig.rope_scaling None)
  /\ BLIP3oDiTConfig.initializer_range cfg
     = merge_policy (kw_initializer_range kwargs) None
         (fallback base_config BLIP3oDiTConfig.initializer_range 0.02%float)
  /\ BLIP3oDiTConfig.use_flash_attention cfg
     = merge_policy (kw_use_flash_attention kwargs) None
         (fallback base_config BLIP3oDiTConfig.use_flash_attention false)
  /\ BLIP3oDiTConfig.attention_dropout cfg
     = merge_policy (kw_attention_dropout kwargs) None
         (fallback base_config BLIP3oDiTConfig.attention_dropout 0.0%float)
  /\ BLIP3oDiTConfig.intermediate_size cfg
     = arg (merge_policy (kw_intermediate_size kwargs) None
              (fallback base_config
                 (fun b => Some (BLIP3oDiTConfig.intermediate_size b)) None))
           (4 * BLIP3oDiTConfig.dim cfg)
  /\ BLIP3oDiTConfig.hidden_dropout cfg
     = merge_policy (kw_hidden_dropout kwargs) None
         (fallback base_config BLIP3oDiTConfig.hidden_dropout 0.0%float)
  /\ BLIP3oDiTConfig.max_position_embeddings cfg
     = merge_policy (kw_max_position_embeddings kwargs) None
         (fallback base_config BLIP3oDiTConfig.max_position_embeddings 1024).
Proof.
  intros H. apply dual_supervision_stored in H. subst cfg.
  destruct kwargs as [k1 k2 k3 k4 k5 k6 k7 k8 k9 k10 k11 k12 k13 k14 k15 k16
                        k17 k18 k19 k20 k21 k22 k23 k24].
  destruct base_config as [b | ]; cbn.
  - repeat match goal with |- _ /\ _ => split end;
      match goal with
      | |- context [update_key _ ?k] => destruct k; reflexivity
      end.
  - repeat match goal with |- _ /\ _ => split end;
      match goal with
      | |- context [update_key _ ?k] => destruct k; reflexivity
      end.
Qed.

Lemma C8_dual_supervision_merge_witness :
  exists cfg,
    get_dual_supervision_config
      (Some (model_with_eva 4096))
      (dict_update (kwargs_dim_n_heads 512 8) (kwargs_mlp_dropout 0.3%float))
    = Ok cfg
    /\ BLIP3oDiTConfig.dim cfg = 512
    /\ BLIP3oDiTConfig.n_heads cfg = 8
    /\ BLIP3oDiTConfig.n_kv_heads cfg = 12
    /\ BLIP3oDiTConfig.mlp_dropout cfg = 0.3%float
    /\ BLIP3oDiTConfig.mlp_hidden_dim cfg = 2048
    /\ BLIP3oDiTConfig.n_layers cfg = 16
    /\ BLIP3oDiTConfig.intermediate_size cfg = 3072.
Proof.
  exists (stored
            (dict_update
               (config_dict_of (model_with_eva 4096))
               (dict_update dual_supervision_keys
                  (dict_update (kwargs_dim_n_heads 512 8)
                               (kwargs_mlp_dropout 0.3%float))))).
  assert (E : get_dual_supervision_config
                (Some (model_with_eva 4096))
                (dict_update (kwargs_dim_n_heads 512 8)
                             (kwargs_mlp_dropout 0.3%float))
              = Ok (stored
                      (dict_update
                         (config_dict_of (model_with_eva 4096))
                         (dict_update dual_supervision_keys
                            (dict_update (kwargs_dim_n_heads 512 8)
                                         (kwargs_mlp_dropout 0.3%float))))))
    by reflexivity.
  split; [exact E |].
  destruct (C8_dual_supervision_merge _ _ _ E)
    as (_ & _ & _ & Hdim & Hl & Hh & Hkv & _ & _ & _ & Hm & _ & Hdrop & _
        & _ & _ & _ & _ & _ & _ & _ & Hsz & _).
  repeat match goal with |- _ /\ _ => split end;
    [rewrite Hdim | rewrite Hh | rewrite Hkv | rewrite Hdrop | rewrite Hm
     | rewrite Hl | rewrite Hsz]; reflexivity.
Defined.

(** * Further properties of the module *)

(** ** What the model constructor accepts *)

Lemma stored_valid_overrides (kw : Kwargs) :
  valid_model (stored kw) -> valid_overrides kw.
Proof.
  unfold valid_overrides, valid_model, stored. simpl.
  intros (Hd & Hl & Hh & Hkv & Hdiv & Hi & Hp & Hc & He & Hm & Hn & Hdrop
          & Hact & Hsig & Hc' & He' & Hp' & Hi').
  repeat match goal with |- _ /\ _ => split end; try assumption.
  intros v Hv. rewrite Hv in Hkv. exact Hkv.
Qed.

(** X1: the model constructor returns a record exactly for the keyword
    mappings that satisfy the invariants, and raises for every other
    mapping.  The exception is an assertion error, except that it is the
    ValueError of the int conversion exactly when the divisibility assertion
    is the first to fail and dim or n_heads has more than 4300 decimal
    digits. *)
Theorem X1_model_constructor_acceptance (kw : Kwargs) :
  ((exists cfg, BLIP3oDiTConfig.__init__ kw = Ok cfg) <-> valid_overrides kw)
  /\ ((exists e, BLIP3oDiTConfig.__init__ kw = Raise e)
      <-> ~ valid_overrides kw)
  /\ (forall e,
         BLIP3oDiTConfig.__init__ kw = Raise e ->
         (exists msg, e = AssertionError msg)
         \/ e = ValueError int_limit_message)
  /\ (forall msg,
         BLIP3oDiTConfig.__init__ kw = Raise (ValueError msg)
         <-> msg = int_limit_message
             /\ 0 < arg (kw_dim kw) 768
             /\ 0 < arg (kw_n_layers kw) 16
             /\ 0 < arg (kw_n_heads kw) 12
             /\ (forall v, kw_n_kv_heads kw = Some (Some v) -> 0 < v)
             /\ ~ (arg (kw_n_heads kw) 12 | arg (kw_dim kw) 768)
             /\ ~ (fits_str_digits (arg (kw_dim kw) 768)
                   /\ fits_str_digits (arg (kw_n_heads kw) 12))).
Proof.
  split; [split | split; [split | split]].
  - intros [cfg H]. apply init_inv in H. destruct H as [-> Hv].
    apply stored_valid_overrides, Hv.
  - intros Hv. exists (stored kw). apply init_ok, valid_overrides_stored, Hv.
  - intros [e H] Hv.
    rewrite (init_ok kw (valid_overrides_stored kw Hv)) in H. discriminate H.
  - intros Hbad. destruct (init_raises kw) as (e & He & _); [| eauto].
    intros Hm. apply Hbad, stored_valid_overrides, Hm.
  - intros e H. apply init_raise_inv in H.
    exact (validate_config_exceptions _ _ H).
  - intros msg. split.
    + intros H. apply init_raise_inv in H.
      apply validate_config_conversion_error in H. simpl in H.
      destruct H as (-> & Hd & Hl & Hh & Hkv & Hnd & Hbig).
      repeat match goal with |- _ /\ _ => split end; try assumption.
      * reflexivity.
      * intros v Hv. rewrite Hv in Hkv. exact Hkv.
      * intros [Fd Fh]. apply convertible_iff in Fd, Fh.
        destruct Hbig; congruence.
    + intros (-> & Hd & Hl & Hh & Hkv & Hnd & Hbig).
      assert (Hv : fst (BLIP3oDiTConfig._validate_config (stored kw))
                   = Raise (ValueError int_limit_message)).
      { apply validate_config_conversion_error. simpl.
        repeat match goal with |- _ /\ _ => split end; try assumption.
        - reflexivity.
        - destruct (kw_n_kv_heads kw) as [[kv | ] | ]; simpl;
            [apply Hkv; reflexivity | assumption | assumption].
        - destruct (convertible (arg (kw_dim kw) 768)) eqn:Ed; [| auto].
          destruct (convertible (arg (kw_n_heads kw) 12)) eqn:Eh; [| auto].
          exfalso. apply Hbig. split; apply convertible_iff; assumption. }
      rewrite init_validates.
      destruct (BLIP3oDiTConfig._validate_config (stored kw)) as [[r | e] s'];
        simpl in Hv; [discriminate Hv | injection Hv as ->; reflexivity].
Qed.

(** The outcome of validation is a function of the attributes it reads. *)
Lemma validate_outcome_same_keys (kw kw' : Kwargs) :
  same_validated_keys kw kw' ->
  fst (BLIP3oDiTConfig._validate_config (stored kw))
  = fst (BLIP3oDiTConfig._validate_config (stored kw')).
Proof.
  intros (H1 & H2 & H3 & H4 & H5 & H6 & H7 & H8 & H9 & H10 & H11 & H12 & H13).
  unfold BLIP3oDiTConfig._validate_config. run_asserts.
  rewrite ?assert_run. cbn -[Z.eqb Z.ltb Z.modulo str_in].
  rewrite <- H1, <- H2, <- H3, <- H4, <- H5, <- H6, <- H7, <- H8, <- H9,
    <- H10, <- H11, <- H12, <- H13.
  repeat (next_check; [| reflexivity]). reflexivity.
Qed.

(** X2: whether the model constructor succeeds, and the exception it raises
    when it does not, depend only on the keys validation reads.  The eleven
    other parameters (qk_norm, norm_eps, _gradient_checkpointing, rope_base,
    rope_scaling, initializer_range, use_flash_attention, attention_dropout,
    intermediate_size, hidden_dropout, max_position_embeddings) are never
    checked: any value is stored. *)
Theorem X2_unvalidated_parameters (kw kw' : Kwargs) :
  same_validated_keys kw kw' ->
  (forall e, BLIP3oDiTConfig.__init__ kw = Raise e
             <-> BLIP3oDiTConfig.__init__ kw' = Raise e)
  /\ ((exists cfg, BLIP3oDiTConfig.__init__ kw = Ok cfg)
      <-> (exists cfg', BLIP3oDiTConfig.__init__ kw' = Ok cfg'))
  /\ (forall cfg',
         BLIP3oDiTConfig.__init__ kw' = Ok cfg' ->
         BLIP3oDiTConfig.qk_norm cfg' = arg (kw_qk_norm kw') true
         /\ BLIP3oDiTConfig.norm_eps cfg' = arg (kw_norm_eps kw') 1e-5%float
         /\ BLIP3oDiTConfig._gradient_checkpointing cfg'
            = arg (kw__gradient_checkpointing kw') true
         /\ BLIP3oDiTConfig.rope_base cfg'
            = arg (kw_rope_base kw') 10000.0%float
         /\ BLIP3oDiTConfig.rope_scaling cfg' = arg (kw_rope_scaling kw') None
         /\ BLIP3oDiTConfig.initializer_range cfg'
            = arg (kw_initializer_range kw') 0.02%float
         /\ BLIP3oDiTConfig.use_flash_attention cfg'
            = arg (kw_use_flash_attention kw') false
         /\ BLIP3oDiTConfig.attention_dropout cfg'
            = arg (kw_attention_dropout kw') 0.0%float
         /\ (forall v, kw_intermediate_size kw' = Some (Some v) ->
                       BLIP3oDiTConfig.intermediate_size cfg' = v)
         /\ BLIP3oDiTConfig.hidden_dropout cfg'
            = arg (kw_hidden_dropout kw') 0.0%float
         /\ BLIP3oDiTConfig.max_position_embeddings cfg'
            = arg (kw_max_position_embeddings kw') 1024).
Proof.
  intros Hsame. pose proof (validate_outcome_same_keys kw kw' Hsame) as Hout.
  rewrite !init_validates.
  destruct (BLIP3oDiTConfig._validate_config (stored kw)) as [[r | e1] s1];
    destruct (BLIP3oDiTConfig._validate_config (stored kw')) as [[r' | e2] s2]
      eqn:E'; simpl in Hout; try discriminate Hout.
  - split; [| split].
    + intros e. split; intros H; discriminate H.
    + split; intros _; eauto.
    + intros cfg' H. injection H as <-.
      pose proof (validate_config_read_only (stored kw')) as Hro.
      rewrite E' in Hro. simpl in Hro. subst s2.
      repeat match goal with |- _ /\ _ => split end; try reflexivity.
      intros v Hv. simpl. rewrite Hv. reflexivity.
  - injection Hout as <-. split; [| split].
    + intros e. split; intros H; exact H.
    + split; intros [c H]; discriminate H.
    + intros cfg' H. discriminate H.
Qed.

Lemma X2_unvalidated_parameters_witness :
  exists cfg,
    BLIP3oDiTConfig.__init__
      (kwargs_unvalidated false false true (-1.0)%float 0.0%float nan
         7.5%float infinity None (Some (-3)) 0) = Ok cfg
    /\ BLIP3oDiTConfig.intermediate_size cfg = -3
    /\ BLIP3oDiTConfig.max_position_embeddings cfg = 0
    /\ BLIP3oDiTConfig.norm_eps cfg = (-1.0)%float.
Proof.
  assert (Hsame : same_validated_keys no_kwargs
            (kwargs_unvalidated false false true (-1.0)%float 0.0%float nan
               7.5%float infinity None (Some (-3)) 0))
    by (repeat split).
  destruct (X2_unvalidated_parameters _ _ Hsame) as (_ & Hok & Hstored).
  destruct (proj1 Hok) as [cfg Hcfg].
  { exists (stored no_kwargs). reflexivity. }
  exists cfg. split; [exact Hcfg |].
  destruct (Hstored cfg Hcfg)
    as (_ & Heps & _ & _ & _ & _ & _ & _ & Hsz & _ & Hpos).
  split; [apply Hsz; reflexivity |].
  split; [exact Hpos | exact Heps].
Defined.

(** X3: on every record the constructor returns the head dimension is at
    least 1, the heads tile the hidden dimension exactly, and there are no
    more heads than hidden units. *)
Theorem X3_head_dim_of_constructed (kw : Kwargs) (cfg : BLIP3oDiTConfig.t) :
  BLIP3oDiTConfig.__init__ kw = Ok cfg ->
  1 <= BLIP3oDiTConfig.get_head_dim cfg
  /\ BLIP3oDiTConfig.n_heads cfg * BLIP3oDiTConfig.get_head_dim cfg
     = BLIP3oDiTConfig.dim cfg
  /\ BLIP3oDiTConfig.n_heads cfg <= BLIP3oDiTConfig.dim cfg.
Proof.
  intros H. apply init_inv in H. destruct H as [_ Hv].
  destruct Hv as (Hd & _ & Hh & _ & [q Hq] & _).
  unfold BLIP3oDiTConfig.get_head_dim. rewrite Hq, Z.div_mul by lia.
  rewrite Hq in Hd. assert (Hq1 : 1 <= q) by nia.
  repeat split; nia.
Qed.

Lemma X3_head_dim_witness :
  exists cfg,
    BLIP3oDiTConfig.__init__ (kwargs_dim_n_heads 512 8) = Ok cfg
    /\ 1 <= BLIP3oDiTConfig.get_head_dim cfg
    /\ BLIP3oDiTConfig.n_heads cfg * BLIP3oDiTConfig.get_head_dim cfg
       = BLIP3oDiTConfig.dim cfg
    /\ BLIP3oDiTConfig.n_heads cfg <= BLIP3oDiTConfig.dim cfg.
Proof.
  exists (stored (kwargs_dim_n_heads 512 8)).
  split; [reflexivity |].
  apply (X3_head_dim_of_constructed (kwargs_dim_n_heads 512 8)).
  reflexivity.
Defined.

(** ** The dual-supervision factory *)

Lemma update_key_absent {A} (other : option A) : update_key None other = other.
Proof. destruct other; reflexivity. Qed.

(** A key preset to the parameter's own default binds as if it were
    absent. *)
Lemma arg_update_key_default {A} (other : option A) (d : A) :
  arg (update_key (Some d) other) d = arg other d.
Proof. destruct other; reflexivity. Qed.

Lemma stored_dual_supervision_keys (kwargs : Kwargs) :
  stored (dict_update dual_supervision_keys kwargs) = stored kwargs.
Proof.
  unfold stored, dict_update, dual_supervision_keys. cbn.
  rewrite !update_key_absent, !arg_update_key_default. reflexivity.
Qed.

(** X4: without a base configuration [get_dual_supervision_config] is the
    plain constructor: the four values it writes are the constructor's own
    defaults, so for every keyword mapping both calls return the same record
    or raise the same exception. *)
Theorem X4_dual_supervision_without_base (kwargs : Kwargs) :
  get_dual_supervision_config None kwargs = BLIP3oDiTConfig.__init__ kwargs.
Proof.
  unfold get_dual_supervision_config.
  rewrite !init_validates, stored_dual_supervision_keys. reflexivity.
Qed.

Lemma stored_config_dict (base : BLIP3oDiTConfig.t) :
  stored (dict_update (config_dict_of base)
                      (dict_update dual_supervision_keys no_kwargs))
  = with_dual_supervision_values base.
Proof. destruct base. reflexivity. Qed.

Lemma dual_supervision_values_valid (c : BLIP3oDiTConfig.t) :
  valid_model c -> valid_model (with_dual_supervision_values c).
Proof.
  unfold valid_model, with_dual_supervision_values. simpl.
  intros (Hd & Hl & Hh & Hkv & Hdiv & Hi & Hp & Hc & He & _ & _ & _
          & Hact & Hsig & Hc' & He' & Hp' & Hi').
  repeat match goal with |- _ /\ _ => split end;
    try assumption; try lia.
  split; reflexivity.
Qed.

(** X5: on a record the constructor has returned, and with no keyword
    arguments, [get_dual_supervision_config] succeeds; its result is the
    base record with mlp_hidden_dim, mlp_num_layers, mlp_dropout and
    _gradient_checkpointing set to 2048, 3, 0.1 and True and every other
    attribute kept; applying it again to that result returns the same
    record. *)
Theorem X5_dual_supervision_on_constructed (kw : Kwargs)
    (base : BLIP3oDiTConfig.t) :
  BLIP3oDiTConfig.__init__ kw = Ok base ->
  get_dual_supervision_config (Some base) no_kwargs
  = Ok (with_dual_supervision_values base)
  /\ get_dual_supervision_config
       (Some (with_dual_supervision_values base)) no_kwargs
     = Ok (with_dual_supervision_values base).
Proof.
  intros H. apply init_inv in H. destruct H as [_ Hv].
  pose proof (dual_supervision_values_valid base Hv) as Hv1.
  pose proof (dual_supervision_values_valid _ Hv1) as Hv2.
  unfold get_dual_supervision_config. split.
  - rewrite init_validates, stored_config_dict.
    rewrite (validate_config_ok _ Hv1). reflexivity.
  - rewrite init_validates, stored_config_dict.
    rewrite (validate_config_ok _ Hv2). reflexivity.
Qed.

Lemma X5_dual_supervision_on_constructed_witness :
  get_dual_supervision_config
    (Some (stored (dict_update (kwargs_dim_n_heads 512 8)
                               (kwargs_mlp_dropout 0.5%float)))) no_kwargs
  = Ok (with_dual_supervision_values
          (stored (dict_update (kwargs_dim_n_heads 512 8)
                               (kwargs_mlp_dropout 0.5%float))))
  /\ BLIP3oDiTConfig.mlp_dropout
       (with_dual_supervision_values
          (stored (dict_update (kwargs_dim_n_heads 512 8)
                               (kwargs_mlp_dropout 0.5%float))))
     = 0.1%float
  /\ BLIP3oDiTConfig.dim
       (with_dual_supervision_values
          (stored (dict_update (kwargs_dim_n_heads 512 8)
                               (kwargs_mlp_dropout 0.5%float))))
     = 512.
Proof.
  split; [| split; reflexivity].
  apply (X5_dual_supervision_on_constructed
           (dict_update (kwargs_dim_n_heads 512 8)
                        (kwargs_mlp_dropout 0.5%float))).
  reflexivity.
Defined.

(** X6: with a base configuration the two derived attributes are copied,
    not derived again: unless the caller passes the key, the result keeps
    the base's n_kv_heads and intermediate_size even when the caller changes
    n_heads or dim; passing the key as None asks for the derivation.
    Without a base configuration both are derived from the new n_heads and
    dim. *)
Theorem X6_derived_attributes_are_copied (kwargs : Kwargs)
    (cfg : BLIP3oDiTConfig.t) :
  (forall base,
      get_dual_supervision_config (Some base) kwargs = Ok cfg ->
      (kw_n_kv_heads kwargs = None ->
       BLIP3oDiTConfig.n_kv_heads cfg = BLIP3oDiTConfig.n_kv_heads base)
      /\ (kw_intermediate_size kwargs = None ->
          BLIP3oDiTConfig.intermediate_size cfg
          = BLIP3oDiTConfig.intermediate_size base)
      /\ (kw_n_kv_heads kwargs = Some None ->
          BLIP3oDiTConfig.n_kv_heads cfg = BLIP3oDiTConfig.n_heads cfg)
      /\ (kw_intermediate_size kwargs = Some None ->
          BLIP3oDiTConfig.intermediate_size cfg
          = 4 * BLIP3oDiTConfig.dim cfg))
  /\ (get_dual_supervision_config None kwargs = Ok cfg ->
      (kw_n_kv_heads kwargs = None ->
       BLIP3oDiTConfig.n_kv_heads cfg = BLIP3oDiTConfig.n_heads cfg)
      /\ (kw_intermediate_size kwargs = None ->
          BLIP3oDiTConfig.intermediate_size cfg
          = 4 * BLIP3oDiTConfig.dim cfg)).
Proof.
  split.
  - intros base H. apply (dual_supervision_stored (Some base)) in H.
    subst cfg.
    repeat match goal with |- _ /\ _ => split end;
      intros Hk; cbn; rewrite Hk; reflexivity.
  - intros H. apply (dual_supervision_stored None) in H. subst cfg.
    repeat match goal with |- _ /\ _ => split end;
      intros Hk; cbn; rewrite Hk; reflexivity.
Qed.

Lemma X6_derived_attributes_witness :
  exists cfg,
    get_dual_supervision_config (Some (stored no_kwargs))
      (kwargs_dim_n_heads 512 8) = Ok cfg
    /\ BLIP3oDiTConfig.n_heads cfg = 8
    /\ BLIP3oDiTConfig.n_kv_heads cfg = 12
    /\ BLIP3oDiTConfig.dim cfg = 512
    /\ BLIP3oDiTConfig.intermediate_size cfg = 3072.
Proof.
  exists (stored (dict_update (config_dict_of (stored no_kwargs))
                    (dict_update dual_supervision_keys
                                 (kwargs_dim_n_heads 512 8)))).
  assert (E : get_dual_supervision_config (Some (stored no_kwargs))
                (kwargs_dim_n_heads 512 8)
              = Ok (stored (dict_update (config_dict_of (stored no_kwargs))
                              (dict_update dual_supervision_keys
                                           (kwargs_dim_n_heads 512 8)))))
    by reflexivity.
  split; [exact E |].
  destruct (proj1 (X6_derived_attributes_are_copied _ _) _ E)
    as (Hkv & Hsz & _).
  split; [reflexivity |].
  split; [rewrite (Hkv eq_refl); reflexivity |].
  split; [reflexivity |].
  rewrite (Hsz eq_refl). reflexivity.
Defined.

(** ** Compatibility of constructed records *)

(** X7: for a model record the constructor has returned, the compatibility
    check succeeds exactly when the flow record has clip_dim 1024 and
    eva_dim 4096; its third assertion, on learn_sigma, can never fail. *)
Theorem X7_compatibility_of_constructed (kw : Kwargs)
    (cfg : BLIP3oDiTConfig.t) (flow : FlowMatchingConfig.t)
    (out : list string) :
  BLIP3oDiTConfig.__init__ kw = Ok cfg ->
  (fst (validate_config_compatibility (mkEnv cfg flow out)) = Ok true
   <-> FlowMatchingConfig.clip_dim flow = 1024
       /\ FlowMatchingConfig.eva_dim flow = 4096)
  /\ fst (validate_config_compatibility (mkEnv cfg flow out))
     <> Raise (AssertionError
                 (plain "Model must use flow matching (learn_sigma=False)")).
Proof.
  intros H. apply init_inv in H. destruct H as [_ Hv].
  destruct Hv as (_ & _ & _ & _ & _ & _ & _ & _ & _ & _ & _ & _ & _
                  & Hsig & Hc & He & _).
  split; [split |].
  - intros Hok. apply compatibility_ok_inv in Hok. simpl in Hok.
    destruct Hok as (Hc' & He' & _). split; congruence.
  - intros [Hc' He'].
    rewrite compatibility_ok; simpl; [reflexivity | congruence ..].
  - unfold validate_config_compatibility. run_asserts. simpl.
    rewrite Hsig. simpl.
    repeat (next_check;
            [| simpl;
               match goal with
               | |- context [assertion_failure ?m] =>
                   destruct (assertion_failure_cases m) as [[_ ->] | ->]
               end; discriminate]).
    simpl. discriminate.
Qed.

Lemma X7_compatibility_of_constructed_witness :
  fst (validate_config_compatibility
         (mkEnv (stored no_kwargs) (flow_with_eva 4096) [])) = Ok true
  /\ fst (validate_config_compatibility
            (mkEnv (stored no_kwargs) (flow_with_eva 768) [])) <> Ok true.
Proof.
  pose proof (X7_compatibility_of_constructed no_kwargs (stored no_kwargs)
                (flow_with_eva 4096) [] eq_refl) as [H1 _].
  pose proof (X7_compatibility_of_constructed no_kwargs (stored no_kwargs)
                (flow_with_eva 768) [] eq_refl) as [H2 _].
  split.
  - apply H1. split; reflexivity.
  - intros Hok. apply H2 in Hok. destruct Hok as [_ Hbad]. discriminate Hbad.
Defined.

(** ** Preset lookup *)

(** X8: whatever the module-level presets are, [get_preset_config] returns
    a record exactly for the four names, spelled in lower case, and the
    record is the module-level object bound to that name; its only
    exception is ValueError. *)
Theorem X8_preset_lookup_exact (g : Globals) (name : string) :
  (forall cfg,
      get_preset_config g name = Ok cfg
      <-> (name = "small" /\ cfg = BLIP3O_SMALL g)
          \/ (name = "default" /\ cfg = BLIP3O_DEFAULT g)
          \/ (name = "large" /\ cfg = BLIP3O_LARGE g)
          \/ (name = "dual_supervision" /\ cfg = BLIP3O_DUAL_SUPERVISION g))
  /\ (forall e, get_preset_config g name = Raise e ->
                exists msg, e = ValueError msg)
  /\ (forall cfg, get_preset_config g "Small" <> Ok cfg).
Proof.
  split; [| split].
  - intros cfg. unfold get_preset_config. cbn [dict_get].
    repeat match goal with
           | |- context [String.eqb name ?k] =>
               destruct (String.eqb_spec name k) as [-> | ?]
           end;
      split; intros H;
      try (injection H as <-; tauto);
      try discriminate H;
      repeat match type of H with
             | _ \/ _ => destruct H as [H | H]
             end;
      destruct H as [Hn Hc]; try discriminate Hn; try congruence.
  - intros e. unfold get_preset_config. cbn [dict_get].
    repeat match goal with
           | |- context [String.eqb name ?k] =>
               destruct (String.eqb_spec name k) as [-> | ?]
           end;
      intros H; try discriminate H.
    injection H as <-. eauto.
  - intros cfg. discriminate.
Qed.

(** X9: in the loaded module every preset [get_preset_config] can return is
    compatible with both module-level flow-matching records, and the
    dual-supervision preset is the same record as the default preset. *)
Theorem X9_presets_are_compatible :
  exists g,
    load_module = Ok g
    /\ (forall name cfg out,
           get_preset_config g name = Ok cfg ->
           validate_config_compatibility
             (mkEnv cfg (FLOW_MATCHING_DUAL_SUPERVISION g) out)
           = (Ok true,
              mkEnv cfg (FLOW_MATCHING_DUAL_SUPERVISION g)
                    (out ++ [success_line])%list)
           /\ validate_config_compatibility
                (mkEnv cfg (FLOW_MATCHING_ENHANCED g) out)
              = (Ok true,
                 mkEnv cfg (FLOW_MATCHING_ENHANCED g)
                       (out ++ [success_line])%list))
    /\ get_preset_config g "dual_supervision" = get_preset_config g "default".
Proof.
  destruct load_module as [g | e] eqn:E; vm_compute in E; [| discriminate E].
  injection E as <-. eexists. split; [reflexivity |]. split.
  - intros name cfg out H.
    unfold get_preset_config in H. cbn [dict_get] in H.
    repeat match type of H with
           | context [String.eqb name ?k] =>
               destruct (String.eqb name k)
           end;
      try discriminate H; injection H as <-;
      split; apply compatibility_ok; reflexivity.
  - reflexivity.
Qed.

(** ** What the training constructor accepts *)

(** X10: the training constructor returns the record it is given exactly
    when the epoch count, the train batch size and the accumulation steps
    are positive, the learning rate is above 0, and the weight decay lies in
    [0,1]; otherwise it raises an assertion error.  A learning rate that is
    not a number is rejected; no other field is checked. *)
Theorem X10_training_constructor_acceptance (f : TrainingConfig.t) :
  (forall cfg, TrainingConfig.__init__ f = Ok cfg
               <-> cfg = f /\ valid_training f)
  /\ ((exists msg, TrainingConfig.__init__ f = Raise (AssertionError msg))
      <-> ~ valid_training f)
  /\ (is_nan (TrainingConfig.learning_rate f) = true -> ~ valid_training f).
Proof.
  split; [| split].
  - intros cfg. split.
    + unfold TrainingConfig.__init__. intros H.
      pose proof (training_post_init_read_only f) as Hro.
      destruct (TrainingConfig.__post_init__ f) as [[r | e] s'] eqn:E;
        [| discriminate].
      simpl in Hro. subst s'. injection H as <-.
      split; [reflexivity | exact (training_post_init_inv _ _ _ E)].
    + intros [-> Hv]. apply training_init_ok, Hv.
  - split.
    + intros [msg H] Hv. rewrite (training_init_ok f Hv) in H. discriminate H.
    + apply training_init_raises_assertion.
  - intros Hnan (_ & _ & Hlr & _).
    assert (F : (0 <? TrainingConfig.learning_rate f)%float = false).
    { apply ltb_false_iff. auto. }
    congruence.
Qed.

(** ** What the flow-matching constructor accepts *)

(** X11: the flow-matching constructor returns the record it is given
    exactly when both kinds are enumerated, both ranges hold and clip_dim
    and eva_dim are positive; otherwise it raises an assertion error.  The
    loss weights and the progressive-training flag are never checked: the
    timestep range is validated whether or not progressive training is
    on. *)
Theorem X11_flow_constructor_acceptance (f : FlowMatchingConfig.t) :
  (forall cfg, FlowMatchingConfig.__init__ f = Ok cfg
               <-> cfg = f /\ valid_flow f)
  /\ ((exists msg, FlowMatchingConfig.__init__ f = Raise (AssertionError msg))
      <-> ~ valid_flow f)
  /\ (FlowMatchingConfig.use_progressive_training f = false ->
      timestep_range_violated f ->
      exists msg, FlowMatchingConfig.__init__ f = Raise (AssertionError msg)).
Proof.
  split; [| split].
  - intros cfg. split.
    + apply flow_init_inv.
    + intros [-> Hv]. apply flow_init_ok, Hv.
  - split.
    + intros [msg H] Hv. rewrite (flow_init_ok f Hv) in H. discriminate H.
    + apply flow_init_raises_assertion.
  - intros _ Hbad. apply flow_init_raises_assertion.
    intros (_ & _ & _ & _ & _ & Ht).
    apply timestep_violated_iff in Hbad. contradiction.
Qed.
